(** * Patient Condition Prediction App: a shallow embedding of [applied_app.py]

    The script classifies five vital readings against fixed thresholds, maps
    the label to an advice text, builds a 24-point hourly timeline, fits an
    ARIMA model to the derived 0/1 series and writes an Excel report with
    three embedded charts.

    Python values are modelled as follows: [int] is [Z] (unbounded), [str] is
    [string], [float] is [pyfloat] (a finite value carried by the rational it
    denotes, or one of the IEEE specials), a list is a [list].  Library calls
    whose result the script cannot determine (matplotlib rendering, ARIMA
    fitting, the xlsx encoder) are fields of an [Externals] record. *)

From Stdlib Require Import ZArith QArith String List Bool Lia.
From Stdlib Require Import Permutation Sorted.
Import ListNotations.

Local Open Scope string_scope.
Local Open Scope Z_scope.

(** ** Python floats *)

(** Every finite binary64 value is a rational number, and comparing two
    finite floats compares the rationals they denote.  [nan] compares false
    with everything, the infinities sit at both ends. *)
Inductive pyfloat : Type :=
| Finite (q : Q)
| PosInf
| NegInf
| NaN.

(** [x <= y] on Python floats. *)
Definition float_le (x y : pyfloat) : bool :=
  match x, y with
  | NaN, _ | _, NaN => false
  | NegInf, _ => true
  | _, PosInf => true
  | Finite p, Finite q => Qle_bool p q
  | PosInf, _ => false
  | Finite _, NegInf => false
  end.

(** The literals [36.5] and [37.5]; both are dyadic, hence exact floats. *)
Definition f36_5 : pyfloat := Finite (73 # 2).
Definition f37_5 : pyfloat := Finite (75 # 2).

(** ** Helper functions of the script *)

Definition Normal : string := "Normal".
Definition AtRisk : string := "At Risk".

(** [classify_patient_condition], lines 10-14.  A chained comparison
    [a <= x <= b] is [a <= x and x <= b]. *)
Definition classify_patient_condition
    (systolic diastolic pulse : Z) (temp : pyfloat) (spo2 : Z) : string :=
  if ((90 <=? systolic) && (systolic <=? 120)
      && ((60 <=? diastolic) && (diastolic <=? 80))
      && ((60 <=? pulse) && (pulse <=? 100))
      && (float_le f36_5 temp && float_le temp f37_5)
      && ((95 <=? spo2) && (spo2 <=? 100)))%bool
  then "Normal"
  else "At Risk".

(** [disease_recommendation], lines 16-21. *)
Definition disease_recommendation (condition : string) : string :=
  if (condition =? "Normal")%string
  then "No immediate diseases suggested based on normal readings."
  else "Possibilities include hypertension, heart disease, respiratory issues, "
       ++ "or other conditions requiring further medical assessment.".

(** ** The ranges the specification names *)

(** A float lies in the closed interval [[lo, hi]] of rationals. *)
Definition float_within (lo hi : Q) (t : pyfloat) : Prop :=
  match t with
  | Finite q => (lo <= q /\ q <= hi)%Q
  | _ => False
  end.

Record VitalReading : Type := mkReading {
  systolic : Z;
  diastolic : Z;
  pulse : Z;
  temperature : pyfloat;
  spo2 : Z
}.

Definition classify (r : VitalReading) : string :=
  classify_patient_condition
    (systolic r) (diastolic r) (pulse r) (temperature r) (spo2 r).

Definition within_normal_ranges (r : VitalReading) : Prop :=
  90 <= systolic r <= 120 /\
  60 <= diastolic r <= 80 /\
  60 <= pulse r <= 100 /\
  float_within (73 # 2) (75 # 2) (temperature r) /\
  95 <= spo2 r <= 100.

(** Each value sits on one end of its range. *)
Definition at_range_boundary (r : VitalReading) : Prop :=
  (systolic r = 90 \/ systolic r = 120) /\
  (diastolic r = 60 \/ diastolic r = 80) /\
  (pulse r = 60 \/ pulse r = 100) /\
  (temperature r = f36_5 \/ temperature r = f37_5) /\
  (spo2 r = 95 \/ spo2 r = 100).

(** [r'] is [r] with one value moved one unit past an end of its range. *)
Inductive nudged_out (r : VitalReading) : VitalReading -> Prop :=
| nudge_systolic v : v = 89 \/ v = 121 ->
    nudged_out r (mkReading v (diastolic r) (pulse r) (temperature r) (spo2 r))
| nudge_diastolic v : v = 59 \/ v = 81 ->
    nudged_out r (mkReading (systolic r) v (pulse r) (temperature r) (spo2 r))
| nudge_pulse v : v = 59 \/ v = 101 ->
    nudged_out r (mkReading (systolic r) (diastolic r) v (temperature r) (spo2 r))
| nudge_temperature q : (q == 71 # 2 \/ q == 77 # 2)%Q ->
    nudged_out r (mkReading (systolic r) (diastolic r) (pulse r) (Finite q) (spo2 r))
| nudge_spo2 v : v = 94 \/ v = 101 ->
    nudged_out r (mkReading (systolic r) (diastolic r) (pulse r) (temperature r) v).

(** ** Exceptions and the two monads of the script *)

Inductive exn : Type :=
| KeyError (key : string)
| LibraryError (what : string).

Class Monad (m : Type -> Type) : Type := {
  ret : forall {A}, A -> m A;
  bind : forall {A B}, m A -> (A -> m B) -> m B
}.

Declare Scope monad_scope.
Delimit Scope monad_scope with monad.
Notation "x <- c ;; k" := (bind c (fun x => k))
  (at level 100, c at next level, right associativity) : monad_scope.
Notation "c ;; k" := (bind c (fun _ => k))
  (at level 100, right associativity) : monad_scope.
Local Open Scope monad_scope.

(** A computation that returns or raises. *)
Definition Result (A : Type) : Type := (exn + A)%type.

#[global] Instance Result_Monad : Monad Result := {
  ret := fun A a => inr a;
  bind := fun A B c k => match c with inl e => inl e | inr a => k a end
}.

(** ** Dates and timestamps *)

(** A naive [datetime] counts microseconds from [datetime.min]; a [date] is
    its day ordinal; a pandas [Timestamp] counts nanoseconds on the same
    line. *)
Definition datetime : Type := Z.
Definition date : Type := Z.
Definition Timestamp : Type := Z.

Definition us_per_day : Z := 86400 * 1000000.
Definition ns_per_day : Z := 86400 * 1000000000.

(** The frequency alias ["H"]: one hour, in nanoseconds. *)
Definition freq_H : Z := 3600 * 1000000000.

(** [dt.date()] drops the time of day. *)
Definition datetime_date (dt : datetime) : date := dt / us_per_day.

(** A [date] used as a timestamp denotes its midnight. *)
Definition Timestamp_of_date (d : date) : Timestamp := d * ns_per_day.

(** [pd.date_range(start=..., periods=..., freq=...)]. *)
Definition date_range (start : Timestamp) (periods : nat) (freq : Z)
  : list Timestamp :=
  map (fun i => start + Z.of_nat i * freq) (seq 0 periods).

(** ** Cell values, series and frames *)

Inductive value : Type :=
| VInt (n : Z)
| VFloat (x : pyfloat)
| VStr (s : string)
| VTime (t : Timestamp).

Definition float_eqb (x y : pyfloat) : bool :=
  match x, y with
  | Finite p, Finite q => Qeq_bool p q
  | PosInf, PosInf | NegInf, NegInf => true
  | _, _ => false
  end.

(** Python's [==] on cell values. *)
Definition value_eqb (a b : value) : bool :=
  match a, b with
  | VInt m, VInt n => m =? n
  | VFloat x, VFloat y => float_eqb x y
  | VInt m, VFloat y => float_eqb (Finite (inject_Z m)) y
  | VFloat x, VInt n => float_eqb x (Finite (inject_Z n))
  | VStr s, VStr t => (s =? t)%string
  | VTime s, VTime t => s =? t
  | _, _ => false
  end.

(** The order [sorted] uses on the keys of one column. *)
Definition value_leb (a b : value) : bool :=
  match a, b with
  | VInt m, VInt n => m <=? n
  | VFloat x, VFloat y => float_le x y
  | VStr s, VStr t => (s <=? t)%string
  | VTime s, VTime t => s <=? t
  | _, _ => false
  end.

Record Series : Type := mkSeries {
  index : list value;
  values : list value
}.

Record DataFrame : Type := mkFrame {
  df_index : list value;
  columns : list (string * list value)
}.

Definition RangeIndex (n : nat) : list value :=
  map (fun i => VInt (Z.of_nat i)) (seq 0 n).

Fixpoint lookup {A : Type} (k : string) (l : list (string * A)) : option A :=
  match l with
  | [] => None
  | (k', a) :: l' => if (k =? k')%string then Some a else lookup k l'
  end.

Fixpoint update {A : Type} (k : string) (a : A) (l : list (string * A))
  : list (string * A) :=
  match l with
  | [] => [(k, a)]
  | (k', a') :: l' =>
      if (k =? k')%string then (k, a) :: l' else (k', a') :: update k a l'
  end.

(** [pd.DataFrame([row], columns=names)]: one row, one column per name. *)
Definition DataFrame_of_row (row : list value) (names : list string)
  : DataFrame :=
  mkFrame (RangeIndex 1) (combine names (map (fun v => [v]) row)).

(** [pd.DataFrame({name: column, ...})]. *)
Definition DataFrame_of_dict (cols : list (string * list value)) : DataFrame :=
  mkFrame (RangeIndex (match cols with [] => 0 | (_, c) :: _ => length c end))
          cols.

(** [df[col]]. *)
Definition getitem (df : DataFrame) (col : string) : Result Series :=
  match lookup col (columns df) with
  | Some vs => inr (mkSeries (df_index df) vs)
  | None => inl (KeyError col)
  end.

(** [df[col] = s]: the frame is updated in place; the model returns the
    frame after the update. *)
Definition setitem (df : DataFrame) (col : string) (s : Series) : DataFrame :=
  mkFrame (df_index df) (update col (values s) (columns df)).

(** [df.set_index(col)]. *)
Definition set_index (df : DataFrame) (col : string) : Result DataFrame :=
  match lookup col (columns df) with
  | Some vs =>
      inr (mkFrame vs (filter (fun c => negb (fst c =? col)%string) (columns df)))
  | None => inl (KeyError col)
  end.

(** [s.apply(f)]. *)
Definition apply (f : value -> value) (s : Series) : Series :=
  mkSeries (index s) (map f (values s)).

Definition is_nan (v : value) : bool :=
  match v with VFloat NaN => true | _ => false end.

(** Distinct values, in order of first appearance. *)
Fixpoint unique (l : list value) : list value :=
  match l with
  | [] => []
  | x :: l' => x :: filter (fun y => negb (value_eqb x y)) (unique l')
  end.

Definition count (x : value) (l : list value) : Z :=
  Z.of_nat (length (filter (value_eqb x) l)).

Fixpoint insert_by {A : Type} (before : A -> A -> bool) (a : A) (l : list A)
  : list A :=
  match l with
  | [] => [a]
  | h :: t => if before a h then a :: l else h :: insert_by before a t
  end.

Definition sort_by {A : Type} (before : A -> A -> bool) (l : list A) : list A :=
  fold_right (insert_by before) [] l.

(** [s.value_counts()]: missing values dropped, most frequent first. *)
Definition value_counts (s : Series) : Series :=
  let vs := filter (fun v => negb (is_nan v)) (values s) in
  let kc := sort_by (fun a b => snd b <=? snd a)
                    (map (fun k => (k, count k vs)) (unique vs)) in
  mkSeries (map fst kc) (map (fun p => VInt (snd p)) kc).

(** [df.groupby(col).size()]: one row per key, keys in ascending order. *)
Definition groupby_size (df : DataFrame) (col : string) : Result Series :=
  s <- getitem df col ;;
  let vs := filter (fun v => negb (is_nan v)) (values s) in
  let keys := sort_by value_leb (unique vs) in
  ret (mkSeries keys (map (fun k => VInt (count k vs)) keys)).

(** ** The timeline, lines 52-64 *)

Definition time_data (today : date) : list Timestamp :=
  date_range (Timestamp_of_date today) 24 freq_H.

Definition condition_data (predicted_condition : string) : list string :=
  if (predicted_condition =? "Normal")%string
  then repeat "Normal" 18 ++ repeat "At Risk" 6
  else repeat "At Risk" 18 ++ repeat "Normal" 6.

Definition plot_data (predicted_condition : string) (today : date) : DataFrame :=
  DataFrame_of_dict
    [("Time", map VTime (time_data today));
     ("Condition", map VStr (condition_data predicted_condition))].

(** [lambda x: 1 if x == "At Risk" else 0], lines 82 and 97. *)
Definition risk_bit (x : value) : value :=
  if value_eqb x (VStr "At Risk") then VInt 1 else VInt 0.

(** Line 97: the frame after the column [Condition_Binary] is added. *)
Definition add_Condition_Binary (plot_data : DataFrame) : Result DataFrame :=
  c <- getitem plot_data "Condition" ;;
  ret (setitem plot_data "Condition_Binary" (apply risk_bit c)).

(** ** Charting functions, lines 67-84 *)

Inductive Figure : Type :=
| Pie (wedges labels : list value) (autopct : string) (startangle : Z)
| Bar (keys heights : list value) (color : list string) (ylabel : string)
| Line (xs ys : list value) (ylabel : string).

Definition plot_condition_distribution (data : DataFrame) : Result Figure :=
  c <- getitem data "Condition" ;;
  let condition_counts := value_counts c in
  ret (Pie (values condition_counts) (index condition_counts) "%1.1f%%" 90).

Definition plot_hourly_condition_counts (data : DataFrame) : Result Figure :=
  sizes <- groupby_size data "Condition" ;;
  ret (Bar (index sizes) (values sizes) ["skyblue"; "salmon"] "Count").

Definition plot_time_series (data : DataFrame) : Result Figure :=
  by_time <- set_index data "Time" ;;
  c <- getitem by_time "Condition" ;;
  let bits := apply risk_bit c in
  ret (Line (index bits) (values bits) "Condition (1 = At Risk, 0 = Normal)").

(** ** The ARIMA interface *)

Record ARIMA : Type := mkARIMA {
  endog : Series;
  order : nat * nat * nat
}.

Record ARIMAResults : Type := mkResults {
  model : ARIMA;
  params : list pyfloat
}.

(** ** Buffers, worksheets and the page *)

Record BytesIO : Type := mkBytesIO {
  getvalue : list Byte.byte;
  tell : nat
}.

(** Buffers are objects on a heap; a variable holds the address. *)
Definition addr : Type := nat.

Record Image : Type := mkImage {
  anchor : string;
  filename : string;
  image_data : addr
}.

Inductive Table : Type :=
| FrameTable (df : DataFrame)
| SeriesTable (s : Series).

Record Worksheet : Type := mkSheet {
  tables : list Table;
  images : list Image;
  cells : list (string * value)
}.

(** What the xlsx encoder reads at save time: each sheet with the bytes of
    its pictures. *)
Record Picture : Type := mkPicture {
  pic_anchor : string;
  pic_filename : string;
  pic_bytes : list Byte.byte
}.

Record SheetData : Type := mkSheetData {
  sd_name : string;
  sd_tables : list Table;
  sd_pictures : list Picture;
  sd_cells : list (string * value)
}.

(** The calls the script makes on Streamlit, on buffers and on the workbook,
    in the order they happen. *)
Inductive Event : Type :=
| Title (body : string)
| SidebarHeader (body : string)
| SidebarSlider (label : string) (min_value max_value default : value)
| Subheader (body : string)
| WriteText (body : string)
| WriteFrame (df : DataFrame)
| Pyplot (fig : Figure)
| DownloadButton (label : string) (data : BytesIO) (file_name : string)
| NewBytesIO (a : addr)
| Savefig (fig : Figure) (a : addr) (format : string)
| Seek (a : addr) (pos : nat)
| OpenWriter (target : addr) (engine : string)
| ToExcel (sheet_name : string)
| InsertImage (sheet_name cell : string) (a : addr)
| WriteCell (sheet_name cell : string)
| CloseWriter (target : addr)
| Fit (m : ARIMA)
| Forecast (steps : nat).

Record World : Type := mkWorld {
  trace : list Event;
  buffers : list BytesIO;
  book : list (string * Worksheet)
}.

Definition World0 : World := mkWorld [] [] [].

(** A step of the script: it changes the world and returns or raises; what
    was done before an exception stays done. *)
Definition M (A : Type) : Type := World -> Result A * World.

#[global] Instance M_Monad : Monad M := {
  ret := fun A a w => (inr a, w);
  bind := fun A B c k w =>
    match c w with
    | (inl e, w') => (inl e, w')
    | (inr a, w') => k a w'
    end
}.

Definition lift {A : Type} (r : Result A) : M A := fun w => (r, w).

Definition emit (e : Event) : M unit :=
  fun w => (inr tt, mkWorld (trace w ++ [e]) (buffers w) (book w)).

(** [try: body finally: cleanup], the shape of a [with] block's exit. *)
Definition finally {A : Type} (body : M A) (cleanup : M unit) : M A :=
  fun w =>
    match body w with
    | (r, w') =>
        match cleanup w' with
        | (inl e, w'') => (inl e, w'')
        | (inr _, w'') => (r, w'')
        end
    end.

(** ** Library calls *)

(** What the script cannot compute by itself: the renderer behind
    [fig.savefig], the ARIMA estimator and the xlsx encoder. *)
Record Externals : Type := mkExternals {
  render : Figure -> string -> list Byte.byte;
  fit : ARIMA -> Result ARIMAResults;
  forecast : ARIMAResults -> nat -> Result (list pyfloat);
  save_xlsx : list SheetData -> list Byte.byte
}.

Fixpoint set_nth {A : Type} (n : nat) (a : A) (l : list A) : list A :=
  match n, l with
  | _, [] => []
  | O, _ :: t => a :: t
  | S n', h :: t => h :: set_nth n' a t
  end.

(** [data] laid over [old] from its first byte. *)
Fixpoint overwrite (old data : list Byte.byte) : list Byte.byte :=
  match old with
  | [] => data
  | h :: old' =>
      match data with
      | [] => old
      | b :: data' => b :: overwrite old' data'
      end
  end.

(** [data] laid over [old] from position [pos]; a gap is filled with zero
    bytes. *)
Fixpoint write_at (pos : nat) (old data : list Byte.byte) : list Byte.byte :=
  match pos, old with
  | O, _ => overwrite old data
  | S pos', [] => Byte.x00 :: write_at pos' [] data
  | S pos', h :: old' => h :: write_at pos' old' data
  end.

(** [b.write(data)]: write at the cursor and move the cursor past what was
    written. *)
Definition write_bytes (b : BytesIO) (data : list Byte.byte) : BytesIO :=
  mkBytesIO (write_at (tell b) (getvalue b) data)
            (tell b + List.length data).

(** A change to the buffer at an address.  Addresses come from [BytesIO_new]
    only, so the failure branch is never taken by the script. *)
Definition buffer_update (a : addr) (f : BytesIO -> BytesIO) : M unit :=
  fun w =>
    match nth_error (buffers w) a with
    | Some b => (inr tt, mkWorld (trace w) (set_nth a (f b) (buffers w)) (book w))
    | None => (inl (LibraryError "no such buffer"), w)
    end.

(** [BytesIO()]. *)
Definition BytesIO_new : M addr :=
  fun w =>
    let a := List.length (buffers w) in
    (inr a, mkWorld (trace w ++ [NewBytesIO a])
                    (buffers w ++ [mkBytesIO [] 0]) (book w)).

(** [b.seek(pos)]. *)
Definition seek (a : addr) (pos : nat) : M unit :=
  buffer_update a (fun b => mkBytesIO (getvalue b) pos) ;;
  emit (Seek a pos).

(** [fig.savefig(b, format=...)]. *)
Definition savefig (ext : Externals) (fig : Figure) (a : addr) (format : string)
  : M unit :=
  buffer_update a (fun b => write_bytes b (render ext fig format)) ;;
  emit (Savefig fig a format).

(** [pd.ExcelWriter(target, engine=...)]: a new, empty workbook. *)
Definition ExcelWriter (target : addr) (engine : string) : M addr :=
  fun w =>
    (inr target, mkWorld (trace w ++ [OpenWriter target engine]) (buffers w) []).

(** [x.to_excel(writer, sheet_name=...)]: the sheet is created on first use. *)
Definition to_excel (t : Table) (sheet_name : string) : M unit :=
  fun w =>
    let ws := match lookup sheet_name (book w) with
              | Some ws => ws
              | None => mkSheet [] [] []
              end in
    (inr tt,
     mkWorld (trace w ++ [ToExcel sheet_name]) (buffers w)
             (update sheet_name
                     (mkSheet (tables ws ++ [t]) (images ws) (cells ws))
                     (book w))).

(** [writer.sheets[name]]; the worksheet is referred to by its name. *)
Definition sheets_getitem (name : string) : M string :=
  fun w =>
    match lookup name (book w) with
    | Some _ => (inr name, w)
    | None => (inl (KeyError name), w)
    end.

Definition sheet_update (worksheet : string) (f : Worksheet -> Worksheet)
  : M unit :=
  fun w =>
    match lookup worksheet (book w) with
    | Some ws =>
        (inr tt, mkWorld (trace w) (buffers w) (update worksheet (f ws) (book w)))
    | None => (inl (LibraryError "no such worksheet"), w)
    end.

(** [worksheet.insert_image(cell, filename, {'image_data': a})]. *)
Definition insert_image (worksheet cell filename : string) (a : addr) : M unit :=
  sheet_update worksheet
    (fun ws => mkSheet (tables ws) (images ws ++ [mkImage cell filename a])
                       (cells ws)) ;;
  emit (InsertImage worksheet cell a).

(** [worksheet.write(cell, v)]. *)
Definition worksheet_write (worksheet cell : string) (v : value) : M unit :=
  sheet_update worksheet
    (fun ws => mkSheet (tables ws) (images ws) (update cell v (cells ws))) ;;
  emit (WriteCell worksheet cell).

Definition sheet_data (w : World) : list SheetData :=
  map (fun s =>
         mkSheetData (fst s) (tables (snd s))
           (map (fun im =>
                   mkPicture (anchor im) (filename im)
                     (match nth_error (buffers w) (image_data im) with
                      | Some b => getvalue b
                      | None => []
                      end))
                (images (snd s)))
           (cells (snd s)))
      (book w).

(** [writer.close()]: the workbook is encoded and written to the target. *)
Definition save_workbook (ext : Externals) (target : addr) : M unit :=
  fun w =>
    buffer_update target
      (fun b => write_bytes b (save_xlsx ext (sheet_data w))) w.

Definition close (ext : Externals) (target : addr) : M unit :=
  save_workbook ext target ;;
  emit (CloseWriter target).

(** [with pd.ExcelWriter(target, engine=...) as writer: body]. *)
Definition with_ExcelWriter {A : Type} (ext : Externals) (target : addr)
    (engine : string) (body : addr -> M A) : M A :=
  writer <- ExcelWriter target engine ;;
  finally (body writer) (close ext writer).

(** Streamlit. *)
Definition st_title (body : string) : M unit := emit (Title body).
Definition st_sidebar_header (body : string) : M unit := emit (SidebarHeader body).
Definition st_subheader (body : string) : M unit := emit (Subheader body).
Definition st_write (body : string) : M unit := emit (WriteText body).
Definition st_write_frame (df : DataFrame) : M unit := emit (WriteFrame df).
Definition st_pyplot (fig : Figure) : M unit := emit (Pyplot fig).

(** [st.sidebar.slider(label, min, max, default)] returns the position the
    operator chose. *)
Definition st_sidebar_slider {A : Type} (label : string)
    (min_value max_value default : value) (chosen : A) : M A :=
  emit (SidebarSlider label min_value max_value default) ;;
  ret chosen.

(** [st.download_button(label, data=a, file_name=...)]: the consumer takes
    the buffer as it is at the call. *)
Definition st_download_button (label : string) (a : addr) (file_name : string)
  : M unit :=
  fun w =>
    match nth_error (buffers w) a with
    | Some b => emit (DownloadButton label b file_name) w
    | None => (inl (LibraryError "no such buffer"), w)
    end.

Definition ARIMA_fit (ext : Externals) (m : ARIMA) : M ARIMAResults :=
  emit (Fit m) ;;
  lift (fit ext m).

Definition ARIMAResults_forecast (ext : Externals) (r : ARIMAResults)
    (steps : nat) : M (list pyfloat) :=
  emit (Forecast steps) ;;
  lift (forecast ext r steps).

(** ** The script, lines 24-140 *)

Section Script.

(** The slider positions, the clock reading and the libraries of one run. *)
Variable ui : VitalReading.
Variable now : datetime.
Variable ext : Externals.

(** Lines 106-137, the body of the [with] block.  [writer.book] (line 112)
    is bound and not used. *)
Definition write_report (input_data plot_data : DataFrame)
    (disease_suggestion : string) (writer : addr) : M unit :=
  to_excel (FrameTable input_data) "Patient Input Data" ;;
  to_excel (FrameTable plot_data) "Time Series Data" ;;
  c <- lift (getitem plot_data "Condition") ;;
  let condition_counts := value_counts c in
  to_excel (SeriesTable condition_counts) "Condition Distribution" ;;
  worksheet <- sheets_getitem "Condition Distribution" ;;
  pie_chart_fig <- lift (plot_condition_distribution plot_data) ;;
  pie_image <- BytesIO_new ;;
  savefig ext pie_chart_fig pie_image "png" ;;
  seek pie_image 0 ;;
  insert_image worksheet "G2" "Pie Chart" pie_image ;;
  bar_chart_fig <- lift (plot_hourly_condition_counts plot_data) ;;
  bar_image <- BytesIO_new ;;
  savefig ext bar_chart_fig bar_image "png" ;;
  seek bar_image 0 ;;
  insert_image worksheet "G20" "Bar Graph" bar_image ;;
  ts_chart_fig <- lift (plot_time_series plot_data) ;;
  ts_image <- BytesIO_new ;;
  savefig ext ts_chart_fig ts_image "png" ;;
  seek ts_image 0 ;;
  insert_image worksheet "G40" "Time Series" ts_image ;;
  worksheet_write worksheet "B2"
    (VStr (String.append "Disease Suggestion: " disease_suggestion)).

Definition script : M unit :=
  st_title "Patient Condition Prediction App" ;;
  st_sidebar_header "Patient Input Features" ;;
  systolic <- st_sidebar_slider "Systolic Pressure (mmHg)"
                (VInt 70) (VInt 180) (VInt 110) (systolic ui) ;;
  diastolic <- st_sidebar_slider "Diastolic Pressure (mmHg)"
                 (VInt 40) (VInt 120) (VInt 75) (diastolic ui) ;;
  pulse <- st_sidebar_slider "Pulse Rate (bpm)"
             (VInt 40) (VInt 180) (VInt 85) (pulse ui) ;;
  temperature <- st_sidebar_slider "Temperature (Â°C)"
                   (VFloat (Finite 35)) (VFloat (Finite 40))
                   (VFloat (Finite 37)) (temperature ui) ;;
  spo2 <- st_sidebar_slider "SPO2 (%)"
            (VInt 70) (VInt 100) (VInt 98) (spo2 ui) ;;
  let input_data :=
    DataFrame_of_row
      [VInt systolic; VInt diastolic; VInt pulse; VFloat temperature; VInt spo2]
      ["Systolic"; "Diastolic"; "Pulse"; "Temperature"; "SPO2"] in
  let predicted_condition :=
    classify_patient_condition systolic diastolic pulse temperature spo2 in
  let disease_suggestion := disease_recommendation predicted_condition in
  st_subheader "Patient Condition Prediction" ;;
  st_write (String.append "Predicted Condition: **"
              (String.append predicted_condition "**")) ;;
  st_write "### Input Parameters" ;;
  st_write_frame input_data ;;
  st_write "### Suggested Disease Considerations" ;;
  st_write disease_suggestion ;;
  st_subheader "Explore Patient Condition Data" ;;
  let today := datetime_date now in
  let plot_data := plot_data predicted_condition today in
  st_write "#### Condition Distribution" ;;
  fig <- lift (plot_condition_distribution plot_data) ;;
  st_pyplot fig ;;
  st_write "#### Hourly Condition Counts" ;;
  fig <- lift (plot_hourly_condition_counts plot_data) ;;
  st_pyplot fig ;;
  st_write "#### Time Series of Patient Condition" ;;
  fig <- lift (plot_time_series plot_data) ;;
  st_pyplot fig ;;
  plot_data <- lift (add_Condition_Binary plot_data) ;;
  endog <- lift (getitem plot_data "Condition_Binary") ;;
  let model := mkARIMA endog (1, 1, 1)%nat in
  model_fit <- ARIMA_fit ext model ;;
  future_pred <- ARIMAResults_forecast ext model_fit 24 ;;
  st_write "#### Download Report" ;;
  report_buffer <- BytesIO_new ;;
  with_ExcelWriter ext report_buffer "xlsxwriter"
    (write_report input_data plot_data disease_suggestion) ;;
  seek report_buffer 0 ;;
  st_download_button "Download Report" report_buffer
    "patient_condition_report_with_charts.xlsx".

(** One run, from a fresh page. *)
Definition run : Result unit * World := script World0.

End Script.

(** ** Reading a run *)

(** The series handed to the estimator: line 97 followed by the lookup of
    line 98. *)
Definition Condition_Binary (plot_data : DataFrame) : Result Series :=
  df <- add_Condition_Binary plot_data ;;
  getitem df "Condition_Binary".

(** The model of line 98 for the given sliders and clock. *)
Definition fitted_model (ui : VitalReading) (now : datetime) : Result ARIMA :=
  s <- Condition_Binary (plot_data (classify ui) (datetime_date now)) ;;
  ret (mkARIMA s (1, 1, 1)%nat).

(** The run reached its last statement. *)
Definition completes (r : Result unit * World) : Prop := fst r = inr tt.

(** [word] occurs in [text]. *)
Definition mentions (text word : string) : bool :=
  match String.index 0 word text with
  | Some _ => true
  | None => false
  end.

(** What was handed to the download consumer: label, buffer, file name. *)
Definition downloads (tr : list Event) : list (string * BytesIO * string) :=
  flat_map (fun e => match e with
                     | DownloadButton l b f => [(l, b, f)]
                     | _ => []
                     end) tr.

(** The calls that put something on the page. *)
Definition is_display (e : Event) : bool :=
  match e with
  | Title _ | SidebarHeader _ | SidebarSlider _ _ _ _ | Subheader _
  | WriteText _ | WriteFrame _ | Pyplot _ | DownloadButton _ _ _ => true
  | _ => false
  end.

Definition page (tr : list Event) : list Event := filter is_display tr.

Definition charts (tr : list Event) : list Figure :=
  flat_map (fun e => match e with Pyplot fig => [fig] | _ => [] end) tr.

(** The trace up to and including the first call of the estimator. *)
Fixpoint until_fit (tr : list Event) : list Event :=
  match tr with
  | [] => []
  | Fit m :: _ => [Fit m]
  | e :: tr' => e :: until_fit tr'
  end.

(** Pictures and written cells of a workbook, each with its sheet. *)
Definition pictures (sd : list SheetData) : list (string * Picture) :=
  flat_map (fun s => map (pair (sd_name s)) (sd_pictures s)) sd.

Definition annotations (sd : list SheetData) : list (string * (string * value)) :=
  flat_map (fun s => map (pair (sd_name s)) (sd_cells s)) sd.

(** [tr] ends with the events [suffix]. *)
Definition ends_with (suffix tr : list Event) : Prop :=
  exists pre, tr = (pre ++ suffix)%list.

(** Every picture goes into a sheet that a table write created earlier. *)
Definition images_follow_tables (tr : list Event) : Prop :=
  forall tr1 tr2 sheet cell a,
    tr = (tr1 ++ InsertImage sheet cell a :: tr2)%list ->
    In (ToExcel sheet) tr1.

(** The same, decided by one pass over the trace; [written] holds the sheets
    created so far. *)
Fixpoint images_follow_tables_from (written : list string) (tr : list Event)
  : bool :=
  match tr with
  | [] => true
  | ToExcel sheet :: tr' => images_follow_tables_from (sheet :: written) tr'
  | InsertImage sheet _ _ :: tr' =>
      existsb (String.eqb sheet) written
      && images_follow_tables_from written tr'
  | _ :: tr' => images_follow_tables_from written tr'
  end.

(** The timeline points of a frame: its [Time] and [Condition] columns, row
    by row. *)
Definition timeline_of (data : DataFrame) : Result (list (value * value)) :=
  t <- getitem data "Time" ;;
  c <- getitem data "Condition" ;;
  ret (combine (values t) (values c)).

(** Strictly increasing. *)
Definition increasing (ts : list Timestamp) : Prop :=
  forall i j a b,
    (i < j)%nat -> nth_error ts i = Some a -> nth_error ts j = Some b -> a < b.

(** ** Properties of a run, named *)

Definition report_file_name : string :=
  "patient_condition_report_with_charts.xlsx".

(** The report of a run: three sheets, three PNG pictures on the last one,
    one annotation, one download. *)
Definition report_contents (ui : VitalReading) (now : datetime)
    (ext : Externals) (w : World) : Prop :=
  let data := plot_data (classify ui) (datetime_date now) in
  let sd := sheet_data w in
  map sd_name sd
    = ["Patient Input Data"; "Time Series Data"; "Condition Distribution"] /\
  (exists pie bar line,
      plot_condition_distribution data = inr pie /\
      plot_hourly_condition_counts data = inr bar /\
      plot_time_series data = inr line /\
      pictures sd
        = [("Condition Distribution",
            mkPicture "G2" "Pie Chart" (render ext pie "png"));
           ("Condition Distribution",
            mkPicture "G20" "Bar Graph" (render ext bar "png"));
           ("Condition Distribution",
            mkPicture "G40" "Time Series" (render ext line "png"))]) /\
  NoDup (map (fun p => pic_anchor (snd p)) (pictures sd)) /\
  annotations sd
    = [("Condition Distribution",
        ("B2", VStr (String.append "Disease Suggestion: "
                       (disease_recommendation (classify ui)))))] /\
  downloads (trace w)
    = [("Download Report", mkBytesIO (save_xlsx ext sd) 0, report_file_name)].

(** The order of the report block: tables before pictures, then close, then
    rewind, then the hand-over of the complete, rewound buffer. *)
Definition report_order (ext : Externals) (w : World) : Prop :=
  images_follow_tables (trace w) /\
  (forall tr1 tr2 sheet cell a,
      trace w = (tr1 ++ InsertImage sheet cell a :: tr2)%list ->
      sheet = "Condition Distribution") /\
  exists pre target b,
    trace w = (pre ++ [CloseWriter target; Seek target 0;
                       DownloadButton "Download Report" b report_file_name])%list /\
    downloads pre = [] /\
    nth_error (buffers w) target = Some b /\
    tell b = 0%nat /\
    getvalue b = save_xlsx ext (sheet_data w).

(** The run stopped at the estimator: the page built so far stays, and there
    is no workbook, no buffer and no download. *)
Definition aborted_at_fit (ui : VitalReading) (m : ARIMA) (e : exn)
    (r : Result unit * World) : Prop :=
  fst r = inl e /\
  ends_with [Fit m] (trace (snd r)) /\
  In (WriteText (String.append "Predicted Condition: **"
                   (String.append (classify ui) "**")))
     (page (trace (snd r))) /\
  In (WriteText (disease_recommendation (classify ui))) (page (trace (snd r))) /\
  List.length (charts (trace (snd r))) = 3%nat /\
  downloads (trace (snd r)) = [] /\
  book (snd r) = [] /\
  buffers (snd r) = [].

(** ** Sample runs *)

Definition reading_normal : VitalReading :=
  mkReading 110 75 85 (Finite 37) 98.

Definition reading_at_risk : VitalReading :=
  mkReading 150 95 110 (Finite (77 # 2)) 90.

Definition reading_low_boundary : VitalReading :=
  mkReading 90 60 60 f36_5 95.

(** Two instants of one day, 09:00 and 17:30. *)
Definition morning : datetime := 739000 * us_per_day + 9 * 3600 * 1000000.
Definition evening : datetime := 739000 * us_per_day + 63000 * 1000000.

Definition chart_tag (fig : Figure) : Byte.byte :=
  match fig with
  | Pie _ _ _ _ => Byte.x01
  | Bar _ _ _ _ => Byte.x02
  | Line _ _ _ => Byte.x03
  end.

(** Libraries that answer: pictures are a PNG signature byte and a tag, the
    estimator returns a flat forecast, the encoder lists the sheets. *)
Definition ext_ok : Externals :=
  mkExternals
    (fun fig _ => [Byte.x89; chart_tag fig])
    (fun m => inr (mkResults m [Finite (1 # 2); Finite (1 # 4)]))
    (fun _ steps => inr (repeat (Finite (1 # 4)) steps))
    (fun sd => Byte.x50 :: Byte.x4b
               :: flat_map (fun s => list_byte_of_string (sd_name s)) sd).

(** The same libraries with an estimator that raises on every series. *)
Definition ext_fit_raises : Externals :=
  mkExternals (render ext_ok)
    (fun _ => inl (LibraryError "LinAlgError"))
    (forecast ext_ok)
    (save_xlsx ext_ok).

(** The same libraries with another estimator and another forecast. *)
Definition ext_other_forecast : Externals :=
  mkExternals (render ext_ok)
    (fun m => inr (mkResults m []))
    (fun _ steps => inr (repeat NaN steps))
    (save_xlsx ext_ok).

(** ** Further readers *)


(** The majority and minority labels of the timeline of a label. *)
Definition majority_label (predicted_condition : string) : string :=
  if (predicted_condition =? "Normal")%string then Normal else AtRisk.

Definition minority_label (predicted_condition : string) : string :=
  if (predicted_condition =? "Normal")%string then AtRisk else Normal.

(** The figures written to buffers, with their formats. *)
Definition saved_figures (tr : list Event) : list (Figure * string) :=
  flat_map (fun e => match e with
                     | Savefig fig _ format => [(fig, format)]
                     | _ => []
                     end) tr.


(** The frame of line 35 for a reading. *)
Definition input_data (ui : VitalReading) : DataFrame :=
  DataFrame_of_row
    [VInt (systolic ui); VInt (diastolic ui); VInt (pulse ui);
     VFloat (temperature ui); VInt (spo2 ui)]
    ["Systolic"; "Diastolic"; "Pulse"; "Temperature"; "SPO2"].



(** A frame whose labels are not all strings. *)
Definition mixed_frame : DataFrame :=
  DataFrame_of_dict
    [("Time", [VTime 0; VTime freq_H; VTime (2 * freq_H)]);
     ("Condition", [VStr "At Risk"; VInt 1; VStr "at risk"]);
     ("Pulse", [VInt 61; VInt 62; VInt 63])].

(** An estimator that fits and then raises on the forecast. *)
Definition ext_forecast_raises : Externals :=
  mkExternals (render ext_ok) (fit ext_ok)
    (fun _ _ => inl (LibraryError "ValueError"))
    (save_xlsx ext_ok).

(** A label that is a string, and a label that is a string or missing. *)
Definition is_str (v : value) : bool :=
  match v with VStr _ => true | _ => false end.

Definition is_label (v : value) : bool := is_str v || is_nan v.

(** The rows whose label is not missing. *)
Definition present (vs : list value) : list value :=
  filter (fun v => negb (is_nan v)) vs.

Definition total (ns : list Z) : Z := fold_right Z.add 0 ns.

(** A frame with a missing label and a label that occurs three times. *)
Definition ward_frame : DataFrame :=
  DataFrame_of_dict
    [("Condition",
      [VStr "Normal"; VStr "Critical"; VFloat NaN; VStr "Critical";
       VStr "At Risk"; VStr "Critical"])].


(** What is on the page apart from the download button. *)
Definition shown (tr : list Event) : list Event :=
  filter (fun e => match e with
                   | DownloadButton _ _ _ => false
                   | _ => is_display e
                   end) tr.

(** The calls of the estimator. *)
Definition estimator_calls (tr : list Event) : list Event :=
  filter (fun e => match e with Fit _ | Forecast _ => true | _ => false end) tr.

(** Libraries that differ from [ext_ok] in every answer. *)
Definition ext_plain : Externals :=
  mkExternals
    (fun _ _ => [])
    (fun m => inr (mkResults m []))
    (fun _ _ => inr [])
    (fun _ => [Byte.x00]).

(** ** Classifier *)

Lemma float_le_within (t : pyfloat) :
  (float_le f36_5 t && float_le t f37_5)%bool = true <->
  float_within (73 # 2) (75 # 2) t.
Proof.
  destruct t as [q| | |]; cbn [float_le f36_5 f37_5 float_within].
  - rewrite andb_true_iff, !Qle_bool_iff. tauto.
  - split; [discriminate | tauto].
  - split; [discriminate | tauto].
  - split; [discriminate | tauto].
Qed.

Lemma classify_values (r : VitalReading) :
  classify r = Normal \/ classify r = AtRisk.
Proof.
  unfold classify, classify_patient_condition, Normal, AtRisk.
  destruct (_ && _)%bool; [left | right]; reflexivity.
Qed.

Lemma classify_normal_iff (r : VitalReading) :
  classify r = Normal <-> within_normal_ranges r.
Proof.
  unfold classify, classify_patient_condition, within_normal_ranges, Normal.
  rewrite <- float_le_within.
  destruct (float_le f36_5 (temperature r) && float_le (temperature r) f37_5)%bool.
  - rewrite andb_true_r.
    destruct (_ && _)%bool eqn:E.
    + rewrite !andb_true_iff, !Z.leb_le in E. intuition lia.
    + split; [discriminate |].
      intros H. exfalso.
      assert (E' : ((90 <=? systolic r) && (systolic r <=? 120)
                    && ((60 <=? diastolic r) && (diastolic r <=? 80))
                    && ((60 <=? pulse r) && (pulse r <=? 100))
                    && ((95 <=? spo2 r) && (spo2 r <=? 100)))%bool = true).
      { rewrite !andb_true_iff, !Z.leb_le. intuition lia. }
      congruence.
  - rewrite andb_false_r, andb_false_l.
    split; [discriminate | intros (_ & _ & _ & H & _); discriminate].
Qed.

Lemma classify_at_risk_iff (r : VitalReading) :
  classify r = AtRisk <-> ~ within_normal_ranges r.
Proof.
  rewrite <- classify_normal_iff.
  destruct (classify_values r) as [H | H]; rewrite H; unfold Normal, AtRisk.
  - split; [discriminate | intros N; elim N; reflexivity].
  - split; [intros _; discriminate | reflexivity].
Qed.

Lemma boundary_within (r : VitalReading) :
  at_range_boundary r -> within_normal_ranges r.
Proof.
  unfold at_range_boundary, within_normal_ranges.
  intros (Hs & Hd & Hp & Ht & Ho).
  repeat split; try lia.
  destruct Ht as [-> | ->]; cbn; split; apply Qle_bool_iff; reflexivity.
Qed.

Lemma nudged_outside (r r' : VitalReading) :
  nudged_out r r' -> ~ within_normal_ranges r'.
Proof.
  intros N (Hs & Hd & Hp & Ht & Ho).
  destruct N as [v Hv | v Hv | v Hv | q Hq | v Hv];
    cbn [systolic diastolic pulse temperature spo2 float_within] in *;
    try lia.
  destruct Ht as [Lo Hi].
  destruct Hq as [E | E]; rewrite E in Lo, Hi.
  - apply Qle_bool_iff in Lo. discriminate.
  - apply Qle_bool_iff in Hi. discriminate.
Qed.

(** C1.  Every reading gets one of the two labels; the label is Normal
    exactly when all five values lie in their inclusive ranges (systolic
    90..120, diastolic 60..80, pulse 60..100, temperature 36.5..37.5, spo2
    95..100) and At Risk otherwise; a reading with every value on an end of
    its range is Normal; a reading with one value one unit past an end of
    its range is At Risk.  Nothing is assumed about the slider ranges. *)
Theorem classify_spec (r : VitalReading) :
  (classify r = Normal \/ classify r = AtRisk) /\
  (classify r = Normal <-> within_normal_ranges r) /\
  (classify r = AtRisk <-> ~ within_normal_ranges r) /\
  (at_range_boundary r -> classify r = Normal) /\
  (forall r', nudged_out r r' -> classify r' = AtRisk).
Proof.
  split; [apply classify_values |].
  split; [apply classify_normal_iff |].
  split; [apply classify_at_risk_iff |].
  split.
  - intros B. apply classify_normal_iff, boundary_within, B.
  - intros r' N. apply classify_at_risk_iff. exact (nudged_outside r r' N).
Qed.

Lemma classify_spec_witness :
  at_range_boundary reading_low_boundary /\
  classify reading_low_boundary = Normal /\
  nudged_out reading_low_boundary (mkReading 90 60 60 f36_5 94) /\
  classify (mkReading 90 60 60 f36_5 94) = AtRisk.
Proof.
  assert (B : at_range_boundary reading_low_boundary).
  { unfold at_range_boundary, reading_low_boundary; cbn; tauto. }
  assert (N : nudged_out reading_low_boundary (mkReading 90 60 60 f36_5 94)).
  { apply (nudge_spo2 reading_low_boundary 94). left; reflexivity. }
  split; [exact B |].
  split; [exact (proj1 (proj2 (proj2 (proj2 (classify_spec reading_low_boundary)))) B) |].
  split; [exact N |].
  exact (proj2 (proj2 (proj2 (proj2 (classify_spec reading_low_boundary)))) _ N).
Defined.

(** ** Advisor *)

Lemma disease_recommendation_cases (condition : string) :
  (condition = Normal /\
   disease_recommendation condition = disease_recommendation Normal) \/
  (condition <> Normal /\
   disease_recommendation condition = disease_recommendation AtRisk).
Proof.
  unfold disease_recommendation, Normal.
  destruct (String.eqb_spec condition "Normal") as [-> | N].
  - left. split; reflexivity.
  - right. split; [exact N | reflexivity].
Qed.

(** C7.  The advice depends on the label alone: Normal gives the fixed
    reassurance text; At Risk (and any label other than Normal) gives the
    fixed text that names hypertension, heart disease, respiratory issues and
    other conditions requiring further medical assessment; equal labels give
    equal texts, so two readings with the same label get the same advice. *)
Theorem disease_recommendation_spec :
  disease_recommendation Normal
    = "No immediate diseases suggested based on normal readings." /\
  disease_recommendation AtRisk
    = "Possibilities include hypertension, heart disease, respiratory issues, or other conditions requiring further medical assessment." /\
  (forall word,
      In word ["hypertension"; "heart disease"; "respiratory issues";
               "other conditions requiring further medical assessment"] ->
      mentions (disease_recommendation AtRisk) word = true) /\
  (forall condition,
      condition <> Normal ->
      disease_recommendation condition = disease_recommendation AtRisk) /\
  (forall c1 c2,
      c1 = c2 -> disease_recommendation c1 = disease_recommendation c2) /\
  (forall r1 r2,
      classify r1 = classify r2 ->
      disease_recommendation (classify r1) = disease_recommendation (classify r2)).
Proof.
  split; [reflexivity |].
  split; [reflexivity |].
  split.
  { intros word H. cbn [In] in H.
    destruct H as [<- | [<- | [<- | [<- | []]]]]; reflexivity. }
  split.
  { intros condition N.
    destruct (disease_recommendation_cases condition) as [[E _] | [_ E]];
      [contradiction | exact E]. }
  split.
  - intros c1 c2 ->. reflexivity.
  - intros r1 r2 ->. reflexivity.
Qed.

Lemma disease_recommendation_spec_witness :
  classify reading_normal = classify reading_low_boundary /\
  disease_recommendation (classify reading_normal)
    = disease_recommendation (classify reading_low_boundary) /\
  "Elevated" <> Normal /\
  disease_recommendation "Elevated" = disease_recommendation AtRisk.
Proof.
  split; [reflexivity |].
  split.
  - apply (proj2 (proj2 (proj2 (proj2 (proj2 disease_recommendation_spec))))
             reading_normal reading_low_boundary).
    reflexivity.
  - split; [discriminate |].
    apply (proj1 (proj2 (proj2 (proj2 disease_recommendation_spec))) "Elevated").
    discriminate.
Defined.

(** ** Timeline *)

Lemma date_range_nth (start : Timestamp) (periods : nat) (freq : Z) (i : nat) :
  (i < periods)%nat ->
  nth_error (date_range start periods freq) i
    = Some (start + Z.of_nat i * freq).
Proof.
  intros H. unfold date_range.
  rewrite nth_error_map.
  rewrite (nth_error_nth' (seq 0 periods) 0%nat) by (rewrite length_seq; exact H).
  rewrite seq_nth by exact H.
  reflexivity.
Qed.

Lemma date_range_length (start : Timestamp) (periods : nat) (freq : Z) :
  List.length (date_range start periods freq) = periods.
Proof. unfold date_range. rewrite length_map, length_seq. reflexivity. Qed.

Lemma date_range_increasing (start : Timestamp) (periods : nat) (freq : Z) :
  0 < freq -> increasing (date_range start periods freq).
Proof.
  intros Hf i j a b Hij Ha Hb.
  assert (Hj : (j < periods)%nat).
  { rewrite <- (date_range_length start periods freq).
    apply nth_error_Some. congruence. }
  rewrite date_range_nth in Ha by lia.
  rewrite date_range_nth in Hb by lia.
  injection Ha as <-. injection Hb as <-.
  nia.
Qed.

Lemma condition_data_cases (predicted_condition : string) :
  (predicted_condition = Normal /\
   condition_data predicted_condition
     = (repeat Normal 18 ++ repeat AtRisk 6)%list) \/
  (predicted_condition <> Normal /\
   condition_data predicted_condition
     = (repeat AtRisk 18 ++ repeat Normal 6)%list).
Proof.
  unfold condition_data, Normal, AtRisk.
  destruct (String.eqb_spec predicted_condition "Normal") as [-> | N].
  - left. split; reflexivity.
  - right. split; [exact N | reflexivity].
Qed.

(** C3.  For every label and every start instant [t], the 24 timestamps
    [t, t + 1h, ..., t + 23h] are strictly increasing and one hour apart; the
    script takes [t] to be midnight of [today]; the timeline has exactly 24
    points, each pairing the i-th timestamp with the i-th label; for the
    label Normal the first 18 labels are Normal and the last 6 At Risk, for
    the label At Risk the first 18 are At Risk and the last 6 Normal. *)
Theorem timeline_spec (predicted_condition : string) (today : date)
    (t : Timestamp) :
  let times := date_range t 24 freq_H in
  let labels := condition_data predicted_condition in
  (List.length times = 24%nat /\
   (forall i, (i < 24)%nat -> nth_error times i = Some (t + Z.of_nat i * freq_H)) /\
   (forall i a b, nth_error times i = Some a -> nth_error times (S i) = Some b ->
                  b - a = freq_H) /\
   increasing times) /\
  time_data today = date_range (Timestamp_of_date today) 24 freq_H /\
  timeline_of (plot_data predicted_condition today)
    = inr (combine (map VTime (time_data today)) (map VStr labels)) /\
  List.length (combine (map VTime (time_data today)) (map VStr labels)) = 24%nat /\
  (predicted_condition = Normal ->
   firstn 18 labels = repeat Normal 18 /\ skipn 18 labels = repeat AtRisk 6) /\
  (predicted_condition = AtRisk ->
   firstn 18 labels = repeat AtRisk 18 /\ skipn 18 labels = repeat Normal 6).
Proof.
  cbv zeta.
  split.
  { split; [apply date_range_length |].
    split; [intros i H; apply date_range_nth, H |].
    split; [| apply date_range_increasing; reflexivity].
    intros i a b Ha Hb.
    assert (Hi : (S i < 24)%nat).
    { rewrite <- (date_range_length t 24 freq_H). apply nth_error_Some. congruence. }
    rewrite date_range_nth in Ha by lia.
    rewrite date_range_nth in Hb by lia.
    injection Ha as <-. injection Hb as <-.
    unfold freq_H. lia. }
  split; [reflexivity |].
  split; [reflexivity |].
  split.
  { rewrite length_combine, !length_map.
    unfold time_data. rewrite date_range_length.
    destruct (condition_data_cases predicted_condition) as [[_ ->] | [_ ->]];
      reflexivity. }
  split.
  - intros ->. split; reflexivity.
  - intros ->. split; reflexivity.
Qed.

Lemma timeline_spec_witness :
  Normal = Normal /\
  firstn 18 (condition_data Normal) = repeat Normal 18 /\
  skipn 18 (condition_data Normal) = repeat AtRisk 6 /\
  (3 < 24)%nat /\
  nth_error (date_range 0 24 freq_H) 3 = Some (0 + Z.of_nat 3 * freq_H).
Proof.
  pose proof (timeline_spec Normal 739000 0) as T. cbv zeta in T.
  destruct T as ((_ & Hn & _) & _ & _ & _ & HN & _).
  split; [reflexivity |].
  split; [exact (proj1 (HN eq_refl)) |].
  split; [exact (proj2 (HN eq_refl)) |].
  split; [lia |].
  apply Hn. lia.
Defined.

(** ** Binary risk series *)

Lemma lookup_update_same {A : Type} (k : string) (a : A)
    (l : list (string * A)) :
  lookup k (update k a l) = Some a.
Proof.
  induction l as [| [k' a'] l IH]; cbn [update lookup].
  - rewrite String.eqb_refl. reflexivity.
  - destruct (String.eqb_spec k k') as [E | N]; cbn [lookup].
    + rewrite String.eqb_refl. reflexivity.
    + destruct (String.eqb_spec k k'); [contradiction | exact IH].
Qed.

Lemma risk_bit_spec (x : value) :
  (risk_bit x = VInt 1 <-> x = VStr AtRisk) /\
  (risk_bit x = VInt 0 <-> x <> VStr AtRisk).
Proof.
  unfold risk_bit, AtRisk.
  destruct x as [n | f | s | t]; cbn [value_eqb];
    try (split; split; [discriminate | discriminate | discriminate | reflexivity]).
  destruct (String.eqb_spec s "At Risk") as [-> | N].
  - split; split; intros H;
      first [reflexivity | discriminate H | elim H; reflexivity].
  - split; split; intros H;
      first [reflexivity | discriminate H
            | injection H as H; contradiction
            | intros H'; injection H' as H'; contradiction ].
Qed.

(** Line 97 on any frame that has a [Condition] column: the new column is
    the image of that column under the lambda, on the same index. *)
Lemma Condition_Binary_apply (df : DataFrame) (c : Series) :
  getitem df "Condition" = inr c ->
  Condition_Binary df = inr (apply risk_bit c).
Proof.
  unfold Condition_Binary, add_Condition_Binary. intros H. rewrite H.
  cbn [bind ret Result_Monad].
  unfold getitem, setitem. cbn [columns df_index].
  rewrite lookup_update_same.
  unfold getitem in H. destruct (lookup "Condition" (columns df)); [| discriminate].
  injection H as <-. reflexivity.
Qed.

(** C4.  The 0/1 series has the index of the timeline and, at every position
    i below 24, the value 1 exactly when the i-th label is At Risk and the
    value 0 otherwise; the line chart plots the same values. *)
Theorem binary_series_aligned (predicted_condition : string) (today : date) :
  let data := plot_data predicted_condition today in
  exists conds bits,
    getitem data "Condition" = inr conds /\
    Condition_Binary data = inr bits /\
    index bits = index conds /\
    List.length (values conds) = 24%nat /\
    List.length (values bits) = 24%nat /\
    (forall i, (i < 24)%nat ->
       exists c b,
         nth_error (values conds) i = Some c /\
         nth_error (values bits) i = Some b /\
         (b = VInt 1 <-> c = VStr AtRisk) /\
         (b = VInt 0 <-> c <> VStr AtRisk)) /\
    (exists xs ylabel,
        plot_time_series data = inr (Line xs (values bits) ylabel)).
Proof.
  cbv zeta.
  set (conds := mkSeries (RangeIndex 24)
                         (map VStr (condition_data predicted_condition))).
  assert (Hc : getitem (plot_data predicted_condition today) "Condition"
               = inr conds) by reflexivity.
  assert (Hlen : List.length (values conds) = 24%nat).
  { unfold conds. cbn [values]. rewrite length_map.
    destruct (condition_data_cases predicted_condition) as [[_ ->] | [_ ->]];
      reflexivity. }
  exists conds, (apply risk_bit conds).
  split; [exact Hc |].
  split; [exact (Condition_Binary_apply _ _ Hc) |].
  split; [reflexivity |].
  split; [exact Hlen |].
  split; [unfold apply; cbn [values]; rewrite length_map; exact Hlen |].
  split.
  - intros i Hi.
    destruct (nth_error (values conds) i) as [c |] eqn:E.
    + exists c, (risk_bit c).
      split; [reflexivity |].
      split; [| exact (risk_bit_spec c)].
      unfold apply. cbn [values]. rewrite nth_error_map, E. reflexivity.
    + apply nth_error_None in E. lia.
  - eexists. eexists. reflexivity.
Qed.

Lemma binary_series_aligned_witness :
  (20 < 24)%nat /\
  exists bits,
    Condition_Binary (plot_data Normal 739000) = inr bits /\
    nth_error (values bits) 20 = Some (VInt 1).
Proof.
  split; [lia |].
  destruct (binary_series_aligned Normal 739000)
    as (conds & bits & Hc & Hb & _ & _ & _ & Hi & _).
  exists bits. split; [exact Hb |].
  destruct (Hi 20%nat ltac:(lia)) as (c & b & Hc' & Hb' & H1 & _).
  rewrite Hb'. f_equal. apply H1.
  vm_compute in Hc. injection Hc as <-.
  cbn in Hc'. injection Hc' as <-. reflexivity.
Defined.

(** ** Running the script *)

Lemma time_data_length (today : date) :
  List.length (time_data today) = 24%nat.
Proof. reflexivity. Qed.

Lemma images_follow_tables_sound (tr : list Event) (written : list string) :
  images_follow_tables_from written tr = true ->
  forall tr1 tr2 sheet cell a,
    tr = (tr1 ++ InsertImage sheet cell a :: tr2)%list ->
    In sheet written \/ In (ToExcel sheet) tr1.
Proof.
  revert written.
  induction tr as [| e tr IH]; intros written H tr1 tr2 sheet cell a E.
  - destruct tr1; discriminate E.
  - destruct tr1 as [| e1 tr1]; cbn [app] in E; injection E as -> ->.
    + cbn in H. apply andb_true_iff in H. destruct H as [H _].
      apply existsb_exists in H. destruct H as (x & Hin & Hx).
      apply String.eqb_eq in Hx. subst x. left. exact Hin.
    + assert (Step : forall written',
                 images_follow_tables_from written'
                   (tr1 ++ InsertImage sheet cell a :: tr2) = true ->
                 (forall x, In x written' -> In x written \/ ToExcel x = e1) ->
                 In sheet written \/ In (ToExcel sheet) (e1 :: tr1)).
      { intros written' H' Sub.
        destruct (IH written' H' tr1 tr2 sheet cell a eq_refl) as [Hin | Hin].
        - destruct (Sub _ Hin) as [K | K];
            [left; exact K | right; left; symmetry; exact K].
        - right. right. exact Hin. }
      destruct e1; cbn [images_follow_tables_from] in H;
        try (apply (Step written H); intros x Hx; left; exact Hx).
      * apply (Step (sheet_name :: written) H).
        intros x [<- | Hx]; [right; reflexivity | left; exact Hx].
      * apply andb_true_iff in H. destruct H as [_ H].
        apply (Step written H); intros x Hx; left; exact Hx.
Qed.

Lemma images_follow_tables_checked (tr : list Event) :
  images_follow_tables_from [] tr = true -> images_follow_tables tr.
Proof.
  intros H tr1 tr2 sheet cell a E.
  destruct (images_follow_tables_sound tr [] H tr1 tr2 sheet cell a E)
    as [[] | K].
  exact K.
Qed.

(** The lookup of line 113 needs the table write of line 109: on a workbook
    without the sheet it raises. *)
Lemma sheets_getitem_missing (name : string) (w : World) :
  lookup name (book w) = None ->
  sheets_getitem name w = (inl (KeyError name), w).
Proof. intros H. unfold sheets_getitem. rewrite H. reflexivity. Qed.

Lemma to_excel_creates (t : Table) (name : string) (w : World) :
  lookup name (book (snd (to_excel t name w))) <> None.
Proof.
  unfold to_excel. cbn [snd book].
  rewrite lookup_update_same. discriminate.
Qed.

Lemma Forall_middle {A : Type} (P : A -> Prop) (l l1 l2 : list A) (x : A) :
  Forall P l -> l = (l1 ++ x :: l2)%list -> P x.
Proof.
  intros F ->. rewrite Forall_forall in F. apply F, in_elt.
Qed.

(** Symbolic execution of a run.  The label is split into its two values,
    the 24 timestamps are named, and the run is evaluated; what remains open
    is the answer of the estimator. *)
Ltac expose :=
  cbv beta iota zeta delta
    [run script bind ret M_Monad st_title st_sidebar_header st_sidebar_slider
     emit World0 trace buffers book app
     systolic diastolic pulse temperature spo2].

(** Name the 24 timestamps of [now]'s day. *)
Ltac enumerate_times now Ets :=
  let ts := fresh "ts" in
  let Len := fresh "Len" in
  pose proof (time_data_length (datetime_date now)) as Len;
  remember (time_data (datetime_date now)) as ts eqn:Ets;
  do 24 (destruct ts as [| ? ts]; [discriminate Len |]);
  destruct ts; [clear Len | discriminate Len].

(** Split on the label of [ui] and open the records. *)
Ltac split_label ui ext L :=
  destruct (classify_values ui) as [L | L]; revert L;
  destruct ui as [s d p t o]; destruct ext as [render0 fit0 forecast0 save0];
  intros L; unfold classify in L;
  cbn [systolic diastolic pulse temperature spo2] in L;
  unfold Normal, AtRisk in L.

(** Replace a run in the goal by its value; [prep] is run on the unfolded
    script before the label and the timestamps are substituted. *)
Ltac eval_run_after prep L Ets :=
  match goal with
  | |- context [run ?u ?n ?e] =>
      let R := fresh "R" in
      eassert (R : run u n e = _);
      [ expose; prep; rewrite L; unfold plot_data; rewrite <- Ets;
        vm_compute; reflexivity
      | rewrite R; clear R ]
  end.

Ltac eval_run L Ets := eval_run_after idtac L Ets.

(** Case analysis on the next answer of the estimator. *)
Ltac next_answer :=
  match goal with
  | |- context [match ?x with inl _ => _ | inr _ => _ end] =>
      destruct x as [?e | ?res]
  end.

(** The run is assumed to complete: both answers are results. *)
Ltac absurd_run :=
  intros;
  match goal with
  | H : fst _ = inr tt |- _ => discriminate H
  end.

Ltac estimator_answers :=
  (next_answer; [absurd_run |]);
  (next_answer; [absurd_run |]);
  intros _.

(** Pick the disjunct of an [In] over an explicit list. *)
Ltac find_in := cbn; repeat (first [left; reflexivity | right]).

(** ** Report *)

(** C5.  A run that reaches its end leaves a workbook of exactly the three
    sheets Patient Input Data, Time Series Data and Condition Distribution;
    exactly three pictures, the PNG renderings of the pie, bar and line
    charts, at the distinct cells G2, G20 and G40 of the last sheet; one
    written cell, B2 of that sheet, holding the advice text after the prefix
    "Disease Suggestion: "; and one download, of the encoded workbook, under
    the fixed file name. *)
Theorem report_artifact_contents (ui : VitalReading) (now : datetime)
    (ext : Externals) :
  completes (run ui now ext) ->
  report_contents ui now ext (snd (run ui now ext)).
Proof.
  unfold completes, report_contents.
  split_label ui ext L; enumerate_times now Ets; eval_run L Ets.
  all: estimator_answers;
    unfold classify; cbn [systolic diastolic pulse temperature spo2];
    rewrite L; unfold plot_data; rewrite <- Ets; vm_compute;
    (split; [reflexivity |]);
    (split; [eexists; eexists; eexists; repeat split; reflexivity |]);
    (split; [repeat constructor; cbn; intuition discriminate |]);
    split; reflexivity.
Qed.

Lemma report_artifact_contents_witness :
  completes (run reading_normal morning ext_ok) /\
  report_contents reading_normal morning ext_ok
    (snd (run reading_normal morning ext_ok)).
Proof.
  split; [reflexivity |].
  apply (report_artifact_contents reading_normal morning ext_ok).
  reflexivity.
Defined.

(** C6.  In a run that reaches its end, every picture is inserted into the
    sheet Condition Distribution and after the table write that created that
    sheet; the trace ends with the close of the writer, the rewind of the
    report buffer to position 0 and the hand-over to the download, and the
    buffer handed over holds the encoding of the whole workbook with its
    cursor at 0. *)
Theorem report_assembly_order (ui : VitalReading) (now : datetime)
    (ext : Externals) :
  completes (run ui now ext) ->
  report_order ext (snd (run ui now ext)).
Proof.
  unfold completes, report_order.
  split_label ui ext L; enumerate_times now Ets; eval_run L Ets.
  all: estimator_answers; cbn [snd trace buffers];
    (split; [apply images_follow_tables_checked; vm_compute; reflexivity |]);
    (split;
     [ intros tr1 tr2 sheet cell a E;
       refine (Forall_middle
                 (fun e => match e with
                           | InsertImage sh _ _ => sh = "Condition Distribution"
                           | _ => True
                           end) _ _ _ _ _ E);
       repeat constructor |]);
    match goal with
    | |- exists pre target b, ?tr = _ /\ _ =>
        exists (firstn (List.length tr - 3) tr)
    end;
    eexists; eexists;
    (split; [reflexivity |]);
    (split; [reflexivity |]);
    (split; [reflexivity |]);
    split; reflexivity.
Qed.

Lemma report_assembly_order_witness :
  completes (run reading_at_risk evening ext_ok) /\
  report_order ext_ok (snd (run reading_at_risk evening ext_ok)).
Proof.
  split; [reflexivity |].
  apply (report_assembly_order reading_at_risk evening ext_ok).
  reflexivity.
Defined.

(** ** Forecasting *)

(** The estimator is asked once, for 24 steps, on the 0/1 series of the
    timeline. *)
Lemma forecast_requested_steps (ui : VitalReading) (now : datetime)
    (ext : Externals) :
  completes (run ui now ext) ->
  exists m,
    fitted_model ui now = inr m /\
    filter (fun e => match e with Fit _ | Forecast _ => true | _ => false end)
           (trace (snd (run ui now ext)))
      = [Fit m; Forecast 24].
Proof.
  unfold completes.
  split_label ui ext L; enumerate_times now Ets; eval_run L Ets.
  all: estimator_answers;
    unfold fitted_model, classify;
    cbn [systolic diastolic pulse temperature spo2];
    rewrite L; unfold plot_data; rewrite <- Ets;
    eexists; split; vm_compute; reflexivity.
Qed.

(** The claim C2 makes fails on the script: here the estimator raises on the
    series of the run, and the run ends with that exception, without a
    workbook and without a download. *)
Lemma fit_error_not_recovered :
  exists m,
    fitted_model reading_normal morning = inr m /\
    fit ext_fit_raises m = inl (LibraryError "LinAlgError") /\
    fst (run reading_normal morning ext_fit_raises)
      = inl (LibraryError "LinAlgError") /\
    ~ completes (run reading_normal morning ext_fit_raises) /\
    downloads (trace (snd (run reading_normal morning ext_fit_raises))) = [] /\
    book (snd (run reading_normal morning ext_fit_raises)) = [].
Proof.
  eexists.
  split; [vm_compute; reflexivity |].
  split; [reflexivity |].
  split; [vm_compute; reflexivity |].
  split; [unfold completes; vm_compute; discriminate |].
  split; vm_compute; reflexivity.
Qed.

(** C2, amended.  When the estimator raises on the series of the run, the
    exception is not caught: the run ends with it at the call of the
    estimator; the label, the advice and the three charts shown before stay
    on the page; no buffer is created, no workbook is written and no download
    is offered. *)
Theorem fit_error_aborts_run (ui : VitalReading) (now : datetime)
    (ext : Externals) (m : ARIMA) (e : exn) :
  fitted_model ui now = inr m ->
  fit ext m = inl e ->
  aborted_at_fit ui m e (run ui now ext).
Proof.
  unfold aborted_at_fit.
  split_label ui ext L; enumerate_times now Ets; eval_run L Ets.
  all: unfold fitted_model, classify;
    cbn [systolic diastolic pulse temperature spo2 fit];
    rewrite L; unfold plot_data; rewrite <- Ets;
    match goal with
    | |- ?lhs = inr _ -> _ =>
        let M := fresh "M" in
        eassert (M : lhs = inr _) by (vm_compute; reflexivity);
        rewrite M; clear M
    end;
    intros Hm Hfit; injection Hm as <-;
    rewrite Hfit; cbn [fst snd trace buffers book];
    (split; [reflexivity |]);
    (split;
     [ match goal with
       | |- ends_with _ ?tr => exists (firstn (List.length tr - 1) tr)
       end; reflexivity |]);
    (split; [find_in |]);
    (split; [find_in |]);
    repeat split; reflexivity.
Qed.

Lemma fit_error_aborts_run_witness :
  exists m,
    fitted_model reading_at_risk evening = inr m /\
    fit ext_fit_raises m = inl (LibraryError "LinAlgError") /\
    aborted_at_fit reading_at_risk m (LibraryError "LinAlgError")
      (run reading_at_risk evening ext_fit_raises).
Proof.
  eexists.
  split; [vm_compute; reflexivity |].
  split; [reflexivity |].
  apply (fit_error_aborts_run reading_at_risk evening ext_fit_raises);
    reflexivity.
Defined.

(** C10.  The forecast is computed and not used: two runs that differ only
    in the estimator, and so in the forecast, and that both reach their end
    leave the same world, that is the same page, the same charts, the same
    workbook, the same buffers and the same download. *)
Theorem forecast_never_consumed (ui : VitalReading) (now : datetime)
    (ext : Externals)
    (fit' : ARIMA -> Result ARIMAResults)
    (forecast' : ARIMAResults -> nat -> Result (list pyfloat)) :
  let ext' := mkExternals (render ext) fit' forecast' (save_xlsx ext) in
  completes (run ui now ext) ->
  completes (run ui now ext') ->
  snd (run ui now ext) = snd (run ui now ext').
Proof.
  cbv zeta. unfold completes.
  split_label ui ext L; cbn [render save_xlsx];
    enumerate_times now Ets; eval_run L Ets; eval_run L Ets.
  all: (next_answer; [absurd_run |]);
    (next_answer; [absurd_run |]);
    (next_answer; [absurd_run |]);
    (next_answer; [absurd_run |]);
    intros _ _; reflexivity.
Qed.

Lemma forecast_never_consumed_witness :
  completes (run reading_normal morning ext_ok) /\
  completes (run reading_normal morning ext_other_forecast) /\
  forecast ext_ok (mkResults (mkARIMA (mkSeries [] []) (1, 1, 1)%nat) []) 24
    <> forecast ext_other_forecast
         (mkResults (mkARIMA (mkSeries [] []) (1, 1, 1)%nat) []) 24 /\
  snd (run reading_normal morning ext_ok)
    = snd (run reading_normal morning ext_other_forecast).
Proof.
  split; [reflexivity |].
  split; [reflexivity |].
  split; [discriminate |].
  apply (forecast_never_consumed reading_normal morning ext_ok
           (fit ext_other_forecast) (forecast ext_other_forecast));
    reflexivity.
Defined.

(** ** Determinism up to the forecast *)

(** C9.  Two runs with the same slider values on the same calendar date,
    whatever the time of day and whatever the libraries, have the same
    label, the same advice, the same 24 timeline points, the same 0/1 series
    and the same trace up to the call of the estimator: the timeline starts
    at midnight of the date, not at the instant of the run. *)
Theorem pipeline_deterministic_given_date
    (ui1 ui2 : VitalReading) (now1 now2 : datetime) (ext1 ext2 : Externals) :
  ui1 = ui2 ->
  datetime_date now1 = datetime_date now2 ->
  classify ui1 = classify ui2 /\
  disease_recommendation (classify ui1) = disease_recommendation (classify ui2) /\
  timeline_of (plot_data (classify ui1) (datetime_date now1))
    = timeline_of (plot_data (classify ui2) (datetime_date now2)) /\
  Condition_Binary (plot_data (classify ui1) (datetime_date now1))
    = Condition_Binary (plot_data (classify ui2) (datetime_date now2)) /\
  until_fit (trace (snd (run ui1 now1 ext1)))
    = until_fit (trace (snd (run ui2 now2 ext2))).
Proof.
  intros <- Hd.
  split; [reflexivity |].
  split; [reflexivity |].
  split; [rewrite Hd; reflexivity |].
  split; [rewrite Hd; reflexivity |].
  destruct ext2 as [render2 fit2 forecast2 save2].
  split_label ui1 ext1 L; enumerate_times now1 Ets;
    eval_run L Ets; eval_run_after ltac:(rewrite <- Hd) L Ets.
  all: repeat next_answer; reflexivity.
Qed.

Lemma pipeline_deterministic_given_date_witness :
  morning <> evening /\
  datetime_date morning = datetime_date evening /\
  timeline_of (plot_data (classify reading_normal) (datetime_date morning))
    = timeline_of (plot_data (classify reading_normal) (datetime_date evening)) /\
  until_fit (trace (snd (run reading_normal morning ext_ok)))
    = until_fit (trace (snd (run reading_normal evening ext_fit_raises))).
Proof.
  split; [discriminate |].
  split; [reflexivity |].
  pose proof (pipeline_deterministic_given_date
                reading_normal reading_normal morning evening
                ext_ok ext_fit_raises eq_refl eq_refl)
    as (_ & _ & Ht & _ & Hr).
  split; [exact Ht | exact Hr].
Defined.

(** * Further properties of the script *)

(** ** Label and advice together, lines 37-38 *)

(** X1.  The advice shown for a reading is the reassurance text exactly when
    all five values lie in their ranges, and the text about possible
    diseases exactly when some value lies outside. *)
Theorem advice_follows_ranges (r : VitalReading) :
  (disease_recommendation (classify r) = disease_recommendation Normal
   <-> within_normal_ranges r) /\
  (disease_recommendation (classify r) = disease_recommendation AtRisk
   <-> ~ within_normal_ranges r).
Proof.
  rewrite <- classify_at_risk_iff, <- classify_normal_iff.
  destruct (classify_values r) as [H | H]; rewrite H.
  - split; split; intros K;
      first [reflexivity | discriminate K].
  - split; split; intros K;
      first [reflexivity | discriminate K].
Qed.

(** X2.  A temperature that is not a number, or infinite, gives At Risk
    whatever the other four values are. *)
Theorem non_finite_temperature_at_risk
    (systolic diastolic pulse spo2 : Z) (temp : pyfloat) :
  temp = NaN \/ temp = PosInf \/ temp = NegInf ->
  classify_patient_condition systolic diastolic pulse temp spo2 = AtRisk.
Proof.
  intros [-> | [-> | ->]]; unfold classify_patient_condition; cbn [float_le f36_5 f37_5];
    rewrite ?andb_false_r; reflexivity.
Qed.

Lemma non_finite_temperature_at_risk_witness :
  (NaN = NaN \/ NaN = PosInf \/ NaN = NegInf) /\
  classify_patient_condition 110 75 85 NaN 98 = AtRisk.
Proof.
  split; [left; reflexivity |].
  apply (non_finite_temperature_at_risk 110 75 85 98 NaN).
  left; reflexivity.
Defined.

(** ** The day of the timeline, lines 52-53 *)



(** ** The three charts of the timeline, lines 56-84 *)

Lemma label_cases (predicted_condition : string) :
  (condition_data predicted_condition
     = (repeat Normal 18 ++ repeat AtRisk 6)%list /\
   majority_label predicted_condition = Normal /\
   minority_label predicted_condition = AtRisk) \/
  (condition_data predicted_condition
     = (repeat AtRisk 18 ++ repeat Normal 6)%list /\
   majority_label predicted_condition = AtRisk /\
   minority_label predicted_condition = Normal).
Proof.
  unfold condition_data, majority_label, minority_label, Normal, AtRisk.
  destruct (predicted_condition =? "Normal")%string; [left | right];
    repeat split.
Qed.

(** X4.  Whatever the readings and the date, the pie chart has two wedges of
    sizes 18 and 6; the wedge of 18 comes first and carries the predicted
    label (At Risk for every label other than Normal). *)
Theorem pie_chart_of_timeline (predicted_condition : string) (today : date) :
  plot_condition_distribution (plot_data predicted_condition today)
  = inr (Pie [VInt 18; VInt 6]
             [VStr (majority_label predicted_condition);
              VStr (minority_label predicted_condition)]
             "%1.1f%%" 90).
Proof.
  unfold plot_data.
  destruct (label_cases predicted_condition) as [(-> & -> & ->) | (-> & -> & ->)];
    reflexivity.
Qed.

(** X5.  The bar chart always lists At Risk before Normal, so with the
    colours given in that order the At Risk bar is sky blue and the Normal
    bar is salmon; the bar of the predicted label has height 18, the other
    height 6. *)
Theorem bar_chart_of_timeline (predicted_condition : string) (today : date) :
  plot_hourly_condition_counts (plot_data predicted_condition today)
  = inr (Bar [VStr AtRisk; VStr Normal]
             (if (predicted_condition =? "Normal")%string
              then [VInt 6; VInt 18] else [VInt 18; VInt 6])
             ["skyblue"; "salmon"] "Count").
Proof.
  unfold plot_data, condition_data.
  destruct (predicted_condition =? "Normal")%string; reflexivity.
Qed.

(** X6.  The line chart is drawn over the 24 timestamps and changes level
    once, between the 18th and the 19th point: from 0 to 1 when the predicted
    label is Normal, from 1 to 0 otherwise. *)
Theorem line_chart_of_timeline (predicted_condition : string) (today : date) :
  plot_time_series (plot_data predicted_condition today)
  = inr (Line (map VTime (time_data today))
              (if (predicted_condition =? "Normal")%string
               then repeat (VInt 0) 18 ++ repeat (VInt 1) 6
               else repeat (VInt 1) 18 ++ repeat (VInt 0) 6)
              "Condition (1 = At Risk, 0 = Normal)").
Proof.
  unfold plot_data, condition_data.
  destruct (predicted_condition =? "Normal")%string; reflexivity.
Qed.

(** ** The charting functions on any frame, lines 67-84 *)

Lemma lookup_update_other {A : Type} (k k' : string) (a : A)
    (l : list (string * A)) :
  k <> k' -> lookup k' (update k a l) = lookup k' l.
Proof.
  intros N.
  induction l as [| [k0 a0] l IH]; cbn [update lookup].
  - destruct (String.eqb_spec k' k); [congruence | reflexivity].
  - destruct (String.eqb_spec k k0) as [<- | N0]; cbn [lookup].
    + destruct (String.eqb_spec k' k); [congruence | reflexivity].
    + destruct (String.eqb_spec k' k0); [reflexivity | exact IH].
Qed.

Lemma lookup_filter_other {A : Type} (k k' : string) (l : list (string * A)) :
  k <> k' ->
  lookup k' (filter (fun c => negb (fst c =? k)%string) l) = lookup k' l.
Proof.
  intros N.
  induction l as [| [k0 a0] l IH]; cbn [filter lookup fst]; [reflexivity |].
  destruct (String.eqb_spec k0 k) as [-> | N0]; cbn [negb lookup].
  - destruct (String.eqb_spec k' k); [congruence | exact IH].
  - rewrite IH. reflexivity.
Qed.

Lemma getitem_setitem_other (df : DataFrame) (col k : string) (s : Series) :
  col <> k -> getitem (setitem df col s) k = getitem df k.
Proof.
  intros N. unfold getitem, setitem. cbn [columns df_index].
  rewrite lookup_update_other by exact N. reflexivity.
Qed.





(** X9.  Adding a column named [Condition_Binary] to a frame changes none of
    the three charts: the charts drawn before line 97 and those drawn for the
    report after it are the same. *)
Theorem charts_ignore_added_column (data : DataFrame) (s : Series) :
  let data' := setitem data "Condition_Binary" s in
  plot_condition_distribution data' = plot_condition_distribution data /\
  plot_hourly_condition_counts data' = plot_hourly_condition_counts data /\
  plot_time_series data' = plot_time_series data.
Proof.
  cbv zeta.
  assert (G : getitem (setitem data "Condition_Binary" s) "Condition"
              = getitem data "Condition")
    by (apply getitem_setitem_other; discriminate).
  split; [unfold plot_condition_distribution; rewrite G; reflexivity |].
  split; [unfold plot_hourly_condition_counts, groupby_size; rewrite G; reflexivity |].
  unfold plot_time_series, set_index, setitem. cbn [columns df_index].
  rewrite lookup_update_other by discriminate.
  destruct (lookup "Time" (columns data)) as [tv |]; [| reflexivity].
  cbn [bind Result_Monad]. unfold getitem. cbn [columns df_index].
  rewrite !lookup_filter_other by discriminate.
  rewrite lookup_update_other by discriminate.
  reflexivity.
Qed.

(** ** The 0/1 column on any frame, line 97 *)

Lemma update_update {A : Type} (k : string) (a b : A) (l : list (string * A)) :
  update k a (update k b l) = update k a l.
Proof.
  induction l as [| [k0 a0] l IH]; cbn [update].
  - rewrite String.eqb_refl. reflexivity.
  - destruct (String.eqb_spec k k0) as [<- | N]; cbn [update].
    + rewrite String.eqb_refl. reflexivity.
    + destruct (String.eqb_spec k k0); [contradiction |].
      rewrite IH. reflexivity.
Qed.

Lemma update_keys {A : Type} (k : string) (a : A) (l : list (string * A)) :
  map fst (update k a l)
  = match lookup k l with
    | Some _ => map fst l
    | None => (map fst l ++ [k])%list
    end.
Proof.
  induction l as [| [k0 a0] l IH]; cbn [update lookup map fst app];
    [reflexivity |].
  destruct (String.eqb_spec k k0) as [<- | N]; cbn [map fst].
  - reflexivity.
  - rewrite IH. destruct (lookup k l); reflexivity.
Qed.

(** X10.  Line 97 on a frame with a [Condition] column keeps the index and
    every other column, puts the 0/1 values under [Condition_Binary] (as the
    last column when the name is new, in place when it exists), and doing it
    a second time changes nothing. *)
Theorem add_Condition_Binary_frame (data : DataFrame) (c : Series) :
  getitem data "Condition" = inr c ->
  exists data',
    add_Condition_Binary data = inr data' /\
    df_index data' = df_index data /\
    (forall k, k <> "Condition_Binary" -> getitem data' k = getitem data k) /\
    getitem data' "Condition_Binary" = inr (apply risk_bit c) /\
    map fst (columns data')
      = match lookup "Condition_Binary" (columns data) with
        | Some _ => map fst (columns data)
        | None => (map fst (columns data) ++ ["Condition_Binary"])%list
        end /\
    add_Condition_Binary data' = inr data'.
Proof.
  intros H.
  exists (setitem data "Condition_Binary" (apply risk_bit c)).
  assert (Hidx : index c = df_index data).
  { unfold getitem in H. destruct (lookup "Condition" (columns data));
      [injection H as <-; reflexivity | discriminate]. }
  split; [unfold add_Condition_Binary; rewrite H; reflexivity |].
  split; [reflexivity |].
  split.
  { intros k N. apply getitem_setitem_other. congruence. }
  split.
  { unfold getitem, setitem. cbn [columns df_index].
    rewrite lookup_update_same. unfold apply. cbn [values]. rewrite Hidx.
    reflexivity. }
  split; [apply update_keys |].
  unfold add_Condition_Binary.
  rewrite getitem_setitem_other by discriminate.
  rewrite H. cbn [bind ret Result_Monad].
  unfold setitem. cbn [columns df_index].
  rewrite update_update. reflexivity.
Qed.

Lemma add_Condition_Binary_frame_witness :
  exists c data',
    getitem mixed_frame "Condition" = inr c /\
    add_Condition_Binary mixed_frame = inr data' /\
    map fst (columns data') = ["Time"; "Condition"; "Pulse"; "Condition_Binary"] /\
    getitem data' "Pulse" = getitem mixed_frame "Pulse" /\
    add_Condition_Binary data' = inr data'.
Proof.
  eexists.
  destruct (add_Condition_Binary_frame mixed_frame _ eq_refl)
    as (data' & Ha & _ & Hk & _ & Hn & Hi).
  exists data'.
  split; [reflexivity |].
  split; [exact Ha |].
  split; [exact Hn |].
  split; [apply Hk; discriminate | exact Hi].
Defined.

(** X11.  The series handed to the estimator is never constant: for every
    label and date it holds both values, 18 zeros and 6 ones when the label
    is Normal and 6 zeros and 18 ones otherwise. *)
Theorem binary_series_never_constant
    (predicted_condition : string) (today : date) :
  exists s,
    Condition_Binary (plot_data predicted_condition today) = inr s /\
    count (VInt 0) (values s)
      = (if (predicted_condition =? "Normal")%string then 18 else 6) /\
    count (VInt 1) (values s)
      = (if (predicted_condition =? "Normal")%string then 6 else 18) /\
    In (VInt 0) (values s) /\
    In (VInt 1) (values s).
Proof.
  unfold plot_data, condition_data.
  destruct (predicted_condition =? "Normal")%string;
    eexists; (split; [reflexivity |]);
    (split; [reflexivity |]); (split; [reflexivity |]);
    split; find_in.
Qed.

(** ** Outcomes of a run *)


(** X13.  When [fit] returns and [forecast] raises, the exception is not
    caught either: the run ends with it right after the call, without a
    buffer, a workbook or a download. *)
Theorem forecast_error_aborts_run (ui : VitalReading) (now : datetime)
    (ext : Externals) (m : ARIMA) (res : ARIMAResults) (e : exn) :
  fitted_model ui now = inr m ->
  fit ext m = inr res ->
  forecast ext res 24 = inl e ->
  fst (run ui now ext) = inl e /\
  ends_with [Fit m; Forecast 24] (trace (snd (run ui now ext))) /\
  List.length (charts (trace (snd (run ui now ext)))) = 3%nat /\
  downloads (trace (snd (run ui now ext))) = [] /\
  book (snd (run ui now ext)) = [] /\
  buffers (snd (run ui now ext)) = [].
Proof.
  split_label ui ext L; enumerate_times now Ets; eval_run L Ets.
  all: unfold fitted_model, classify;
    cbn [systolic diastolic pulse temperature spo2 fit forecast];
    rewrite L; unfold plot_data; rewrite <- Ets;
    match goal with
    | |- ?lhs = inr _ -> _ =>
        let M := fresh "M" in
        eassert (M : lhs = inr _) by (vm_compute; reflexivity);
        rewrite M; clear M
    end;
    intros Hm Hfit Hfc; injection Hm as <-;
    rewrite Hfit; cbn iota beta; rewrite Hfc;
    cbn [fst snd trace buffers book];
    (split; [reflexivity |]);
    (split;
     [ match goal with
       | |- ends_with _ ?tr => exists (firstn (List.length tr - 2) tr)
       end; reflexivity |]);
    repeat split; reflexivity.
Qed.

Lemma forecast_error_aborts_run_witness :
  exists m res,
    fitted_model reading_normal morning = inr m /\
    fit ext_forecast_raises m = inr res /\
    forecast ext_forecast_raises res 24 = inl (LibraryError "ValueError") /\
    fst (run reading_normal morning ext_forecast_raises)
      = inl (LibraryError "ValueError") /\
    downloads (trace (snd (run reading_normal morning ext_forecast_raises))) = [].
Proof.
  eexists. eexists.
  split; [vm_compute; reflexivity |].
  split; [reflexivity |].
  split; [reflexivity |].
  pose proof (forecast_error_aborts_run reading_normal morning
                ext_forecast_raises _ _ _ eq_refl eq_refl eq_refl)
    as (Hr & _ & _ & Hd & _).
  split; [exact Hr | exact Hd].
Defined.

(** ** The tables and pictures of the report, lines 106-134 *)



(** X15.  In a run that reaches its end the three figures saved for the
    report are the three figures shown on the page, in the same order and
    each saved as PNG; and every buffer, the three pictures and the report,
    is left rewound to position 0. *)
Theorem report_pictures_match_page (ui : VitalReading) (now : datetime)
    (ext : Externals) :
  completes (run ui now ext) ->
  List.length (charts (trace (snd (run ui now ext)))) = 3%nat /\
  saved_figures (trace (snd (run ui now ext)))
    = map (fun fig => (fig, "png")) (charts (trace (snd (run ui now ext)))) /\
  List.length (buffers (snd (run ui now ext))) = 4%nat /\
  Forall (fun b => tell b = 0%nat) (buffers (snd (run ui now ext))).
Proof.
  unfold completes.
  split_label ui ext L; enumerate_times now Ets; eval_run L Ets.
  all: estimator_answers; cbn [snd trace buffers];
    (split; [reflexivity |]);
    (split; [reflexivity |]);
    (split; [reflexivity |]);
    repeat constructor.
Qed.

Lemma report_pictures_match_page_witness :
  completes (run reading_normal evening ext_ok) /\
  saved_figures (trace (snd (run reading_normal evening ext_ok)))
    = map (fun fig => (fig, "png"))
          (charts (trace (snd (run reading_normal evening ext_ok)))).
Proof.
  split; [reflexivity |].
  exact (proj1 (proj2 (report_pictures_match_page
                         reading_normal evening ext_ok eq_refl))).
Defined.

(** ** Counting labels on any frame, lines 69 and 76 *)

Section Sorting.

Context {A : Type} (before : A -> A -> bool).

Lemma insert_by_perm (a : A) (l : list A) :
  Permutation (insert_by before a l) (a :: l).
Proof.
  induction l as [| h t IH]; cbn [insert_by]; [reflexivity |].
  destruct (before a h); [reflexivity |].
  rewrite IH. apply perm_swap.
Qed.

Lemma sort_by_perm (l : list A) : Permutation (sort_by before l) l.
Proof.
  unfold sort_by.
  induction l as [| a l IH]; cbn [fold_right]; [reflexivity |].
  rewrite insert_by_perm, IH. reflexivity.
Qed.

Variable P : A -> Prop.

Hypothesis before_total :
  forall a b, P a -> P b -> before a b = false -> before b a = true.

Lemma insert_by_sorted (a : A) (l : list A) :
  P a -> Forall P l ->
  Sorted (fun x y => before x y = true) l ->
  Sorted (fun x y => before x y = true) (insert_by before a l).
Proof.
  intros Pa F S. revert F.
  induction S as [| h t St IH Hd]; intros F; cbn [insert_by].
  - repeat constructor.
  - inversion F as [| ? ? Ph Pt]; subst.
    destruct (before a h) eqn:E.
    + constructor; [constructor; assumption | constructor; exact E].
    + constructor; [exact (IH Pt) |].
      destruct t as [| h' t']; cbn [insert_by].
      * constructor. apply before_total; assumption.
      * destruct (before a h'); constructor.
        -- apply before_total; assumption.
        -- inversion Hd; assumption.
Qed.

Lemma sort_by_sorted (l : list A) :
  Forall P l -> Sorted (fun x y => before x y = true) (sort_by before l).
Proof.
  unfold sort_by.
  induction 1 as [| a l Pa F IH]; cbn [fold_right]; [constructor |].
  apply insert_by_sorted; [exact Pa | | exact IH].
  apply (Permutation_Forall (P := P) (Permutation_sym (sort_by_perm l))), F.
Qed.

End Sorting.

Lemma value_eqb_str (x y : value) :
  is_str x = true -> (value_eqb x y = true <-> x = y).
Proof.
  destruct x as [| | s |]; try discriminate. intros _.
  destruct y as [| | t |]; cbn [value_eqb];
    try (split; discriminate).
  rewrite String.eqb_eq. split; [intros ->; reflexivity | intros H; injection H as ->; reflexivity].
Qed.

Lemma present_labels (vs : list value) :
  Forall (fun v => is_label v = true) vs ->
  Forall (fun v => is_str v = true) (present vs).
Proof.
  intros F. apply Forall_forall. intros v Hv.
  apply filter_In in Hv. destruct Hv as [Hin Hn].
  rewrite Forall_forall in F. specialize (F v Hin).
  unfold is_label in F. destruct (is_nan v); [discriminate Hn |].
  rewrite orb_false_r in F. exact F.
Qed.

Lemma unique_incl (l : list value) (x : value) : In x (unique l) -> In x l.
Proof.
  revert x. induction l as [| h t IH]; cbn [unique]; intros x H; [exact H |].
  destruct H as [<- | H]; [left; reflexivity |].
  apply filter_In in H. right. apply IH, H.
Qed.

Lemma unique_complete (l : list value) (x : value) :
  Forall (fun v => is_str v = true) l -> In x l -> In x (unique l).
Proof.
  induction l as [| h t IH]; cbn [unique]; intros F H; [exact H |].
  inversion F as [| ? ? Fh Ft]; subst.
  destruct (value_eqb h x) eqn:E.
  - left. apply value_eqb_str; assumption.
  - right. apply filter_In. rewrite E. split; [| reflexivity].
    destruct H as [<- | H]; [| exact (IH Ft H)].
    assert (K : value_eqb h h = true) by (apply value_eqb_str; [exact Fh | reflexivity]).
    congruence.
Qed.

Lemma unique_NoDup (l : list value) :
  Forall (fun v => is_str v = true) l -> NoDup (unique l).
Proof.
  induction l as [| h t IH]; cbn [unique]; intros F; [constructor |].
  inversion F as [| ? ? Fh Ft]; subst.
  constructor.
  - intros H. apply filter_In in H. destruct H as [_ H].
    assert (K : value_eqb h h = true) by (apply value_eqb_str; [exact Fh | reflexivity]).
    rewrite K in H. discriminate.
  - apply NoDup_filter, IH, Ft.
Qed.

Lemma count_cons (k x : value) (l : list value) :
  count k (x :: l) = (if value_eqb k x then 1 else 0) + count k l.
Proof.
  unfold count. cbn [filter].
  destruct (value_eqb k x); cbn [List.length]; lia.
Qed.

Lemma count_absent (k : value) (l : list value) :
  is_str k = true -> ~ In k l -> count k l = 0.
Proof.
  intros Hk. induction l as [| x l IH]; intros N; [reflexivity |].
  rewrite count_cons.
  destruct (value_eqb k x) eqn:E.
  - apply value_eqb_str in E; [| exact Hk]. elim N. left. symmetry. exact E.
  - rewrite IH; [reflexivity |]. intros H. apply N. right. exact H.
Qed.

Lemma count_member (k : value) (l : list value) :
  is_str k = true -> In k l -> 1 <= count k l.
Proof.
  intros Hk. induction l as [| x l IH]; intros H; [destruct H |].
  rewrite count_cons.
  assert (P : 0 <= count k l) by (unfold count; lia).
  destruct H as [-> | H].
  - assert (K : value_eqb k k = true) by (apply value_eqb_str; [exact Hk | reflexivity]).
    rewrite K. lia.
  - specialize (IH H). destruct (value_eqb k x); lia.
Qed.

Lemma total_cons (n : Z) (ns : list Z) : total (n :: ns) = n + total ns.
Proof. reflexivity. Qed.

(** Taking one key out of a duplicate-free list of keys. *)
Lemma total_without (f : value -> Z) (x : value) (keys : list value) :
  is_str x = true ->
  NoDup keys ->
  total (map f keys)
  = (if existsb (value_eqb x) keys then f x else 0)
    + total (map f (filter (fun y => negb (value_eqb x y)) keys)).
Proof.
  intros Hx. induction 1 as [| k keys Hk Hn IH]; [reflexivity |].
  cbn [map existsb filter]. rewrite total_cons, IH.
  destruct (value_eqb x k) eqn:E; cbn [orb negb].
  - apply value_eqb_str in E; [| exact Hx]. subst k.
    assert (Z0 : existsb (value_eqb x) keys = false).
    { destruct (existsb (value_eqb x) keys) eqn:Ex; [| reflexivity].
      apply existsb_exists in Ex. destruct Ex as (y & Hy & Ey).
      apply value_eqb_str in Ey; [| exact Hx]. subst y. contradiction. }
    rewrite Z0. lia.
  - cbn [map]. rewrite total_cons. lia.
Qed.

(** The counts of the distinct labels add up to the number of rows. *)
Lemma total_counts (l : list value) :
  Forall (fun v => is_str v = true) l ->
  total (map (fun k => count k l) (unique l)) = Z.of_nat (List.length l).
Proof.
  induction l as [| x l IH]; intros F; [reflexivity |].
  inversion F as [| ? ? Fx Fl]; subst.
  cbn [unique map]. rewrite total_cons.
  assert (Kx : value_eqb x x = true)
    by (apply value_eqb_str; [exact Fx | reflexivity]).
  rewrite count_cons, Kx.
  assert (E : map (fun k => count k (x :: l))
                  (filter (fun y => negb (value_eqb x y)) (unique l))
              = map (fun k => count k l)
                    (filter (fun y => negb (value_eqb x y)) (unique l))).
  { apply map_ext_in. intros k Hk.
    apply filter_In in Hk. destruct Hk as [Hin Hne].
    rewrite count_cons.
    destruct (value_eqb k x) eqn:Ek; [| reflexivity].
    assert (Sk : is_str k = true).
    { rewrite Forall_forall in Fl. apply Fl, unique_incl, Hin. }
    apply value_eqb_str in Ek; [| exact Sk]. subst k.
    rewrite Kx in Hne. discriminate. }
  rewrite E.
  specialize (IH Fl).
  rewrite (total_without (fun k => count k l) x (unique l) Fx
             (unique_NoDup l Fl)) in IH.
  assert (C : (if existsb (value_eqb x) (unique l) then count x l else 0)
              = count x l).
  { destruct (existsb (value_eqb x) (unique l)) eqn:Ex; [reflexivity |].
    symmetry. apply count_absent; [exact Fx |].
    intros Hin. apply (unique_complete l x Fl) in Hin.
    assert (T : existsb (value_eqb x) (unique l) = true).
    { apply existsb_exists. exists x. split; [exact Hin | exact Kx]. }
    congruence. }
  rewrite C in IH.
  change (List.length (x :: l)) with (S (List.length l)).
  rewrite Nat2Z.inj_succ. lia.
Qed.

Lemma total_perm (l l' : list Z) : Permutation l l' -> total l = total l'.
Proof.
  induction 1 as [| x l l' _ IH | x y l | l l' l'' _ IH1 _ IH2];
    rewrite ?total_cons; lia.
Qed.

Lemma Sorted_map {A B : Type} (R : A -> A -> Prop) (R' : B -> B -> Prop)
    (f : A -> B) (l : list A) :
  (forall a b, R a b -> R' (f a) (f b)) ->
  Sorted R l -> Sorted R' (map f l).
Proof.
  intros H. induction 1 as [| h t St IH Hd]; cbn [map]; constructor.
  - exact IH.
  - destruct Hd; cbn [map]; constructor. apply H. assumption.
Qed.

(** X16.  On a frame whose labels are strings or missing, the pie chart has
    one wedge per distinct label; the size of a wedge is the number of rows
    with its label; the sizes add up to the number of rows with a label;
    the largest wedge comes first. *)
Theorem pie_chart_of_frame (data : DataFrame) (c : Series) :
  getitem data "Condition" = inr c ->
  Forall (fun v => is_label v = true) (values c) ->
  let rows := present (values c) in
  exists labels,
    plot_condition_distribution data
      = inr (Pie (map (fun l => VInt (count l rows)) labels) labels
                 "%1.1f%%" 90) /\
    NoDup labels /\
    (forall l, In l labels <-> In l rows) /\
    total (map (fun l => count l rows) labels) = Z.of_nat (List.length rows) /\
    Sorted (fun a b => count b rows <= count a rows) labels.
Proof.
  intros H F. cbv zeta.
  pose proof (present_labels _ F) as Fs.
  set (rows := present (values c)) in *.
  set (kc := sort_by (fun a b : value * Z => snd b <=? snd a)
               (map (fun k => (k, count k rows)) (unique rows))).
  assert (Pk : Permutation kc (map (fun k => (k, count k rows)) (unique rows)))
    by apply sort_by_perm.
  assert (Pl : Permutation (map fst kc) (unique rows)).
  { rewrite Pk, map_map. cbn [fst]. rewrite map_id. reflexivity. }
  assert (Fk : Forall (fun p => snd p = count (fst p) rows) kc).
  { apply (Permutation_Forall (Permutation_sym Pk)).
    apply Forall_forall. intros p Hp.
    apply in_map_iff in Hp. destruct Hp as (k & <- & _). reflexivity. }
  exists (map fst kc).
  split.
  { unfold plot_condition_distribution. rewrite H.
    cbn [bind ret Result_Monad]. unfold value_counts.
    fold (present (values c)). fold rows. fold kc. cbn [values index].
    do 2 f_equal. rewrite map_map.
    apply map_ext_in. intros p Hp.
    rewrite Forall_forall in Fk. rewrite (Fk p Hp). reflexivity. }
  split.
  { apply (Permutation_NoDup (Permutation_sym Pl)), unique_NoDup, Fs. }
  split.
  { intros l. split; intros Hl.
    - apply unique_incl. apply (Permutation_in _ Pl), Hl.
    - apply (Permutation_in _ (Permutation_sym Pl)).
      apply unique_complete; assumption. }
  split.
  { rewrite (total_perm _ _ (Permutation_map (fun l => count l rows) Pl)).
    apply total_counts, Fs. }
  assert (Sk : Sorted (fun a b : value * Z => (snd b <=? snd a) = true) kc).
  { apply (sort_by_sorted _ (fun _ => True)).
    - intros a b _ _ E. apply Z.leb_le. apply Z.leb_gt in E. lia.
    - apply Forall_forall. intros; exact I. }
  clear Pk Pl. revert Fk.
  induction Sk as [| p t St IH Hd]; intros Fk; cbn [map]; constructor.
  - apply IH. inversion Fk; assumption.
  - inversion Fk as [| ? ? Ep Ft]; subst.
    destruct Hd as [| q t' Hq]; cbn [map]; constructor.
    inversion Ft as [| ? ? Eq _]; subst.
    rewrite <- Ep, <- Eq. apply Z.leb_le, Hq.
Qed.

Lemma pie_chart_of_frame_witness :
  exists c labels,
    getitem ward_frame "Condition" = inr c /\
    Forall (fun v => is_label v = true) (values c) /\
    plot_condition_distribution ward_frame
      = inr (Pie (map (fun l => VInt (count l (present (values c)))) labels)
                 labels "%1.1f%%" 90) /\
    total (map (fun l => count l (present (values c))) labels) = 5.
Proof.
  eexists.
  assert (F : Forall (fun v => is_label v = true)
                [VStr "Normal"; VStr "Critical"; VFloat NaN; VStr "Critical";
                 VStr "At Risk"; VStr "Critical"])
    by (repeat constructor).
  destruct (pie_chart_of_frame ward_frame _ eq_refl F)
    as (labels & E & _ & _ & T & _).
  exists labels.
  split; [reflexivity |].
  split; [exact F |].
  split; [exact E | exact T].
Defined.



(** ** Sliders and ranges, lines 11-12 and 28-32 *)



(** ** What the libraries can and cannot change *)

(** X19.  The renderer, the estimator and the encoder have no influence on
    the page or the workbook: two runs with the same sliders and clock that
    reach their end show the same elements before the download button and
    leave the same sheets, tables, picture anchors and written cells; only
    the bytes behind the pictures and the download can differ. *)
Theorem page_independent_of_libraries (ui : VitalReading) (now : datetime)
    (ext1 ext2 : Externals) :
  completes (run ui now ext1) ->
  completes (run ui now ext2) ->
  shown (trace (snd (run ui now ext1))) = shown (trace (snd (run ui now ext2))) /\
  book (snd (run ui now ext1)) = book (snd (run ui now ext2)) /\
  map (fun d => (fst (fst d), snd d)) (downloads (trace (snd (run ui now ext1))))
  = map (fun d => (fst (fst d), snd d)) (downloads (trace (snd (run ui now ext2)))).
Proof.
  unfold completes.
  destruct ext2 as [render2 fit2 forecast2 save2].
  split_label ui ext1 L; enumerate_times now Ets; eval_run L Ets; eval_run L Ets.
  all: (next_answer; [absurd_run |]);
    (next_answer; [absurd_run |]);
    (next_answer; [absurd_run |]);
    (next_answer; [absurd_run |]);
    intros _ _; cbn [snd trace book];
    (split; [vm_compute; reflexivity |]);
    split; [reflexivity | vm_compute; reflexivity].
Qed.

Lemma page_independent_of_libraries_witness :
  completes (run reading_at_risk morning ext_ok) /\
  completes (run reading_at_risk morning ext_plain) /\
  downloads (trace (snd (run reading_at_risk morning ext_ok)))
    <> downloads (trace (snd (run reading_at_risk morning ext_plain))) /\
  shown (trace (snd (run reading_at_risk morning ext_ok)))
    = shown (trace (snd (run reading_at_risk morning ext_plain))).
Proof.
  split; [reflexivity |].
  split; [reflexivity |].
  split; [vm_compute; discriminate |].
  exact (proj1 (page_independent_of_libraries reading_at_risk morning
                  ext_ok ext_plain eq_refl eq_refl)).
Defined.

(** X20.  In every run the estimator is fitted exactly once, on the 0/1
    series of the timeline with order (1, 1, 1); the forecast is requested
    exactly once, for 24 steps, when the fit returned, and not at all when
    it raised. *)
Theorem estimator_called_once (ui : VitalReading) (now : datetime)
    (ext : Externals) :
  exists m,
    fitted_model ui now = inr m /\
    order m = (1, 1, 1)%nat /\
    Condition_Binary (plot_data (classify ui) (datetime_date now))
      = inr (endog m) /\
    estimator_calls (trace (snd (run ui now ext)))
      = match fit ext m with
        | inl _ => [Fit m]
        | inr _ => [Fit m; Forecast 24]
        end.
Proof.
  split_label ui ext L; enumerate_times now Ets; eval_run L Ets.
  all: unfold fitted_model, classify;
    cbn [systolic diastolic pulse temperature spo2 fit forecast];
    rewrite L; unfold plot_data; rewrite <- Ets;
    eexists; (split; [vm_compute; reflexivity |]);
    (split; [reflexivity |]);
    (split; [vm_compute; reflexivity |]);
    next_answer; [reflexivity |];
    next_answer; reflexivity.
Qed.
